(** * Triple-buffer LVGL display driver (triplebuffer.c): shallow embedding

    The driver keeps three frame buffers in PSRAM and three global
    pointers [work_buf], [front_buf], [back_buf] that tag them with a role.
    The embedding keeps the C view of the data: memory is a map from byte
    addresses to bytes, a buffer is the address of its first byte, and a
    role swap is an exchange of two addresses.  Calls into FreeRTOS, ESP-IDF
    and LVGL are recorded in an event trace; what they answer (an allocation
    result, the return code of [esp_async_memcpy], whether the DMA engine
    ever signals completion) is an input of the function that makes the
    call. *)

From Stdlib Require Import ZArith List Bool Lia.
Import ListNotations.
Local Open Scope Z_scope.

(** ** Configuration (the [#define]s of the source) *)

Definition DISP_WIDTH : Z := 720.
Definition DISP_HEIGHT : Z := 720.
Definition DISP_BPP : Z := 2.
Definition FB_SIZE : Z := DISP_WIDTH * DISP_HEIGHT * DISP_BPP.
Definition FB_ALIGN : Z := 64.

(** ESP-IDF error codes used by the source ([esp_err.h]). *)
Definition ESP_OK : Z := 0.
Definition ESP_ERR_NO_MEM : Z := 257.

(** The null pointer. *)
Definition NULL : Z := 0.

(** [uint32_t] / [size_t] arithmetic of the 32-bit target wraps. *)
Definition wrap32 (z : Z) : Z := z mod 2 ^ 32.

(** ** Memory *)

(** Byte-addressed memory: address to byte value. *)
Definition memory := Z -> Z.

Definition in_range (base len a : Z) : bool :=
  (base <=? a) && (a <? base + len).

(** [memcpy(dst, src, n)] for regions that do not overlap. *)
Definition memcpy (m : memory) (dst src n : Z) : memory :=
  fun a => if in_range dst n a then m (src + (a - dst)) else m a.

(** [memset(dst, c, n)]. *)
Definition memset (m : memory) (dst c n : Z) : memory :=
  fun a => if in_range dst n a then c mod 256 else m a.

(** A little-endian 16-bit load (one RGB565 pixel). *)
Definition read16 (m : memory) (a : Z) : Z := m a + 256 * m (a + 1).

(** ** Calls into the environment, in the order they are made
    (the trace is kept most recent first). *)

Inductive event : Type :=
| EvAlloc (align size ptr : Z)            (* heap_caps_aligned_alloc *)
| EvMemset (dst c len : Z)
| EvMemcpy (dst src len : Z)
| EvAsyncMemcpy (dst src len ret : Z)     (* esp_async_memcpy and its result *)
| EvSemGiveFromISR                        (* gdma_copy_done_cb *)
| EvSemTake                               (* xSemaphoreTake(.., portMAX_DELAY) *)
| EvLogE
| EvLogW
| EvLogI
| EvDrawBitmap (x y w h fb : Z)           (* esp_lcd_panel_draw_bitmap *)
| EvFlushReady                            (* lv_disp_flush_ready *)
| EvTimerHandler (time_till_next : Z)     (* lv_timer_handler and its result *)
| EvTaskDelay (ticks : Z).                (* vTaskDelay *)

(** ** Global state of the driver *)

Record state : Type := mkState {
  work_buf : Z;                 (* LVGL renders into this *)
  front_buf : Z;                (* LCD_CAM reads from this *)
  back_buf : Z;                 (* GDMA copy target, then swap *)
  s_copy_done_sem : bool;       (* binary semaphore: true when given *)
  s_copy_in_progress : bool;
  mem : memory;
  held : list (Z * Z);          (* heap blocks obtained and not freed: base, size *)
  trace : list event
}.

Definition initial_state (m : memory) : state :=
  mkState NULL NULL NULL false false m [] [].

Definition set_work_buf (p : Z) (s : state) : state :=
  mkState p (front_buf s) (back_buf s) (s_copy_done_sem s)
          (s_copy_in_progress s) (mem s) (held s) (trace s).

Definition set_front_buf (p : Z) (s : state) : state :=
  mkState (work_buf s) p (back_buf s) (s_copy_done_sem s)
          (s_copy_in_progress s) (mem s) (held s) (trace s).

Definition set_back_buf (p : Z) (s : state) : state :=
  mkState (work_buf s) (front_buf s) p (s_copy_done_sem s)
          (s_copy_in_progress s) (mem s) (held s) (trace s).

Definition set_sem (b : bool) (s : state) : state :=
  mkState (work_buf s) (front_buf s) (back_buf s) b
          (s_copy_in_progress s) (mem s) (held s) (trace s).

Definition set_in_progress (b : bool) (s : state) : state :=
  mkState (work_buf s) (front_buf s) (back_buf s) (s_copy_done_sem s)
          b (mem s) (held s) (trace s).

Definition set_mem (m : memory) (s : state) : state :=
  mkState (work_buf s) (front_buf s) (back_buf s) (s_copy_done_sem s)
          (s_copy_in_progress s) m (held s) (trace s).

Definition set_held (h : list (Z * Z)) (s : state) : state :=
  mkState (work_buf s) (front_buf s) (back_buf s) (s_copy_done_sem s)
          (s_copy_in_progress s) (mem s) h (trace s).

Definition emit (e : event) (s : state) : state :=
  mkState (work_buf s) (front_buf s) (back_buf s) (s_copy_done_sem s)
          (s_copy_in_progress s) (mem s) (held s) (e :: trace s).

(** [memcpy] and [memset] as the program calls them: the store changes and
    the call is recorded. *)
Definition do_memcpy (dst src n : Z) (s : state) : state :=
  emit (EvMemcpy dst src n) (set_mem (memcpy (mem s) dst src n) s).

Definition do_memset (dst c n : Z) (s : state) : state :=
  emit (EvMemset dst c n) (set_mem (memset (mem s) dst c n) s).

(** ** GDMA async memcpy *)

(** What the copy engine answers to one [esp_async_memcpy]: the code it
    returns, and whether an accepted job is ever carried out and signalled. *)
Record dma_resp : Type := mkDma {
  dma_ret : Z;
  dma_completes : bool
}.

(** The engine either refuses the job or finishes it. *)
Definition dma_responsive (r : dma_resp) : Prop :=
  dma_ret r <> ESP_OK \/ dma_completes r = true.

(** ISR callback: gives the binary semaphore. *)
Definition gdma_copy_done_cb (s : state) : state :=
  emit EvSemGiveFromISR (set_sem true s).

(** [esp_async_memcpy]: on [ESP_OK] the engine owns the job; when it carries
    it out, the bytes are copied and the callback runs once. *)
Definition esp_async_memcpy (dst src len : Z) (r : dma_resp) (s : state)
  : Z * state :=
  let s1 := emit (EvAsyncMemcpy dst src len (dma_ret r)) s in
  if dma_ret r =? ESP_OK then
    if dma_completes r
    then (ESP_OK, gdma_copy_done_cb (set_mem (memcpy (mem s1) dst src len) s1))
    else (ESP_OK, s1)
  else (dma_ret r, s1).

(** [xSemaphoreTake(sem, portMAX_DELAY)]: returns once the semaphore has
    been given; [None] is a task blocked for ever. *)
Definition xSemaphoreTake (s : state) : option state :=
  if s_copy_done_sem s then Some (emit EvSemTake (set_sem false s)) else None.

Definition gdma_copy_buffer (dst src len : Z) (r : dma_resp) (s : state)
  : option state :=
  let s0 := set_in_progress true s in
  let '(ret, s1) := esp_async_memcpy dst src len r s0 in
  if negb (ret =? ESP_OK) then
    (* Fallback: CPU memcpy *)
    let s2 := emit EvLogW s1 in
    let s3 := do_memcpy dst src len s2 in
    Some (set_in_progress false s3)
  else
    match xSemaphoreTake s1 with
    | Some s2 => Some (set_in_progress false s2)
    | None => None
    end.

(** ** Buffer swap *)

Definition swap_buffers (s : state) : state :=
  let tmp := front_buf s in
  let s1 := set_front_buf (back_buf s) s in
  let s2 := set_back_buf tmp s1 in
  emit (EvDrawBitmap 0 0 DISP_WIDTH DISP_HEIGHT (front_buf s2)) s2.

(** ** LVGL flush callback *)

(** [lv_area_t]: inclusive corner coordinates. *)
Record lv_area_t : Type := mkArea {
  x1 : Z;
  y1 : Z;
  x2 : Z;
  y2 : Z
}.

Definition area_w (area : lv_area_t) : Z := wrap32 (x2 area - x1 area + 1).
Definition area_h (area : lv_area_t) : Z := wrap32 (y2 area - y1 area + 1).

(** Addresses of row [y] of the tile: [src] in the colour map, [dst] in the
    work buffer (both are [uint16_t *] in the source, hence the factor 2). *)
Definition row_src (area : lv_area_t) (color_map y : Z) : Z :=
  color_map + 2 * wrap32 (y * area_w area).

Definition row_dst (area : lv_area_t) (work y : Z) : Z :=
  work + 2 * ((y1 area + y) * DISP_WIDTH + x1 area).

Definition row_len (area : lv_area_t) : Z := wrap32 (area_w area * 2).

(** Body of the row loop. *)
Definition flush_row (area : lv_area_t) (color_map : Z) (s : state) (y : nat)
  : state :=
  do_memcpy (row_dst area (work_buf s) (Z.of_nat y))
            (row_src area color_map (Z.of_nat y))
            (row_len area) s.

(** [for (int y = 0; y < h; y++)]: rows [0 .. n-1] in order. *)
Definition flush_rows (area : lv_area_t) (color_map : Z) (n : nat) (s : state)
  : state :=
  fold_left (flush_row area color_map) (seq 0 n) s.

(** The last flush of a frame: GDMA copy work -> back, then swap. *)
Definition finalize_frame (r : dma_resp) (s : state) : option state :=
  match gdma_copy_buffer (back_buf s) (work_buf s) FB_SIZE r s with
  | Some s1 => Some (swap_buffers s1)
  | None => None
  end.

(** [is_last] is the answer of [lv_disp_flush_is_last(drv)]. *)
Definition lvgl_flush_cb (is_last : bool) (area : lv_area_t) (color_map : Z)
                         (r : dma_resp) (s : state) : option state :=
  let s1 := flush_rows area color_map (Z.to_nat (area_h area)) s in
  if is_last then
    match finalize_frame r s1 with
    | Some s2 => Some (emit EvFlushReady s2)
    | None => None
    end
  else Some (emit EvFlushReady s1).

(** ** Buffer allocation *)

(** [heap_caps_aligned_alloc]: [resp] is what the allocator answers, [NULL]
    when the request cannot be satisfied.  A block that was handed out stays
    in [held] until it is freed. *)
Definition heap_caps_aligned_alloc (align size resp : Z) (s : state)
  : Z * state :=
  let s1 := emit (EvAlloc align size resp) s in
  if resp =? NULL then (NULL, s1)
  else (resp, set_held ((resp, size) :: held s1) s1).

Definition allocate_buffers (p0 p1 p2 : Z) (s : state) : Z * state :=
  let '(w, s1) := heap_caps_aligned_alloc FB_ALIGN FB_SIZE p0 s in
  let s1 := set_work_buf w s1 in
  let '(f, s2) := heap_caps_aligned_alloc FB_ALIGN FB_SIZE p1 s1 in
  let s2 := set_front_buf f s2 in
  let '(b, s3) := heap_caps_aligned_alloc FB_ALIGN FB_SIZE p2 s2 in
  let s3 := set_back_buf b s3 in
  if (work_buf s3 =? NULL) || (front_buf s3 =? NULL) || (back_buf s3 =? NULL)
  then (ESP_ERR_NO_MEM, emit EvLogE s3)
  else
    (* Clear buffers (black screen) *)
    let s4 := do_memset (work_buf s3) 0 FB_SIZE s3 in
    let s5 := do_memset (front_buf s4) 0 FB_SIZE s4 in
    let s6 := do_memset (back_buf s5) 0 FB_SIZE s5 in
    (ESP_OK, emit EvLogI s6).

(** ** LVGL task *)

Record task_locals : Type := mkLocals {
  frame_count : Z;
  last_fps_tick : Z
}.

(** Minimum 1ms, maximum 10ms. *)
Definition task_delay (time_till_next : Z) : Z :=
  if time_till_next <? 1 then 1
  else if time_till_next >? 10 then 10
  else time_till_next.

Section LvglTask.

(** [pdMS_TO_TICKS] depends on the tick rate the firmware is built with. *)
Variable pdMS_TO_TICKS : Z -> Z.

(** One turn of the [while (1)] loop: [time_till_next] is what
    [lv_timer_handler] returned (its flush callbacks have already run on
    [s]) and [now] what [xTaskGetTickCount] returned. *)
Definition lvgl_task_iter (time_till_next now : Z) (l : task_locals)
                          (s : state) : task_locals * state :=
  let s1 := emit (EvTimerHandler time_till_next) s in
  let fc := wrap32 (frame_count l + 1) in
  let '(l1, s2) :=
    if wrap32 (now - last_fps_tick l) >=? pdMS_TO_TICKS 5000
    then (mkLocals 0 now, emit EvLogI s1)
    else (mkLocals fc (last_fps_tick l), s1) in
  let delay := task_delay time_till_next in
  (l1, emit (EvTaskDelay (pdMS_TO_TICKS delay)) s2).

End LvglTask.

(** ** Start-up: GDMA driver, LCD panel, LVGL display, [app_main]

    The handles and the calls of the start-up code are kept beside the
    driver state. *)

(** [sizeof(lv_color_t)] of an RGB565 build (the flush callback reads the
    colour map as [uint16_t]). *)
Definition LV_COLOR_SIZE : Z := 2.

(** Render buffer height, in lines. *)
Definition BUF_LINES : Z := 40.

Inductive sys_event : Type :=
| SysSemCreate (ok : bool)                     (* xSemaphoreCreateBinary *)
| SysGdmaInstall (backlog ret : Z)             (* esp_async_memcpy_install_gdma_ahb *)
| SysPanelNew (h_res v_res data_width num_fbs ret : Z)  (* esp_lcd_new_rgb_panel *)
| SysPanelReset (ret : Z)                      (* esp_lcd_panel_reset *)
| SysPanelInit (ret : Z)                       (* esp_lcd_panel_init *)
| SysLvInit                                    (* lv_init *)
| SysMalloc (size ptr : Z)                     (* heap_caps_malloc *)
| SysDrawBufInit (buf1 buf2 size_px : Z)       (* lv_disp_draw_buf_init *)
| SysDrvRegister (hor_res ver_res direct_mode full_refresh : Z)
                                               (* lv_disp_drv_register *)
| SysDemoUi                                    (* create_demo_ui *)
| SysTaskCreate (stack prio core : Z).         (* xTaskCreatePinnedToCore *)

Record system : Type := mkSystem {
  drv : state;
  sem_created : bool;           (* s_copy_done_sem is not NULL *)
  s_mcp_handle : Z;
  s_panel_handle : Z;
  render_buf : Z;
  calls : list sys_event        (* most recent first *)
}.

Definition initial_system (m : memory) : system :=
  mkSystem (initial_state m) false NULL NULL NULL [].

Definition set_drv (d : state) (y : system) : system :=
  mkSystem d (sem_created y) (s_mcp_handle y) (s_panel_handle y)
           (render_buf y) (calls y).

Definition sys_emit (e : sys_event) (y : system) : system :=
  mkSystem (drv y) (sem_created y) (s_mcp_handle y) (s_panel_handle y)
           (render_buf y) (e :: calls y).

(** Initialize GDMA driver.  [sem_ok] tells whether
    [xSemaphoreCreateBinary] could create the semaphore (it is created
    empty); [handle] and [ret] are what the driver installation answers. *)
Definition gdma_copy_init (sem_ok : bool) (handle ret : Z) (y : system)
  : Z * system :=
  let y1 := sys_emit (SysSemCreate sem_ok) y in
  if negb sem_ok then
    (ESP_ERR_NO_MEM,
     mkSystem (drv y1) false (s_mcp_handle y1) (s_panel_handle y1)
              (render_buf y1) (calls y1))
  else
    let y2 := mkSystem (set_sem false (drv y1)) true (s_mcp_handle y1)
                       (s_panel_handle y1) (render_buf y1) (calls y1) in
    let y3 := sys_emit (SysGdmaInstall 4 ret) y2 in
    (ret,
     mkSystem (drv y3) (sem_created y3)
              (if ret =? ESP_OK then handle else s_mcp_handle y3)
              (s_panel_handle y3) (render_buf y3) (calls y3)).

(** LCD RGB panel setup; each step is wrapped in [ESP_RETURN_ON_ERROR],
    which logs and returns the code of a step that fails. *)
Definition lcd_panel_init (handle r_new r_reset r_init : Z) (y : system)
  : Z * system :=
  let y0 := set_drv (emit EvLogI (drv y)) y in
  let y1 := sys_emit (SysPanelNew DISP_WIDTH DISP_HEIGHT 16 0 r_new) y0 in
  if negb (r_new =? ESP_OK) then (r_new, set_drv (emit EvLogE (drv y1)) y1)
  else
    let y2 := mkSystem (drv y1) (sem_created y1) (s_mcp_handle y1) handle
                       (render_buf y1) (calls y1) in
    let y3 := sys_emit (SysPanelReset r_reset) y2 in
    if negb (r_reset =? ESP_OK)
    then (r_reset, set_drv (emit EvLogE (drv y3)) y3)
    else
      let y4 := sys_emit (SysPanelInit r_init) y3 in
      if negb (r_init =? ESP_OK)
      then (r_init, set_drv (emit EvLogE (drv y4)) y4)
      else (ESP_OK, y4).

(** LVGL setup: a small render buffer, no direct mode, no full refresh.
    [buf] is what [heap_caps_malloc] answers; it is not tested. *)
Definition lvgl_display_init (buf : Z) (y : system) : system :=
  let y1 := sys_emit SysLvInit y in
  let y2 := sys_emit (SysMalloc (DISP_WIDTH * BUF_LINES * LV_COLOR_SIZE) buf)
                     y1 in
  let y3 := mkSystem (drv y2) (sem_created y2) (s_mcp_handle y2)
                     (s_panel_handle y2) buf (calls y2) in
  let y4 := sys_emit (SysDrawBufInit (render_buf y3) NULL
                                     (DISP_WIDTH * BUF_LINES)) y3 in
  sys_emit (SysDrvRegister DISP_WIDTH DISP_HEIGHT 0 0) y4.

(** What the environment answers during start-up. *)
Record boot_env : Type := mkBootEnv {
  env_fb0 : Z;                  (* the three frame buffer requests *)
  env_fb1 : Z;
  env_fb2 : Z;
  env_sem_ok : bool;
  env_mcp : Z;
  env_gdma_ret : Z;
  env_panel : Z;
  env_panel_new : Z;
  env_panel_reset : Z;
  env_panel_init : Z;
  env_render_buf : Z
}.

(** [ESP_ERROR_CHECK] aborts the program on anything but [ESP_OK]. *)
Inductive boot_result : Type :=
| Running (y : system)
| Aborted (y : system).

Definition app_main (e : boot_env) (y : system) : boot_result :=
  let y0 := set_drv (emit EvLogI (emit EvLogI (emit EvLogI (drv y)))) y in
  (* 1. Allocate buffers *)
  let '(ret1, d1) :=
    allocate_buffers (env_fb0 e) (env_fb1 e) (env_fb2 e) (drv y0) in
  let y1 := set_drv d1 y0 in
  if negb (ret1 =? ESP_OK) then Aborted y1 else
  (* 2. Initialize GDMA *)
  let '(ret2, y2) :=
    gdma_copy_init (env_sem_ok e) (env_mcp e) (env_gdma_ret e) y1 in
  if negb (ret2 =? ESP_OK) then Aborted y2 else
  (* 3. Initialize LCD panel *)
  let '(ret3, y3) :=
    lcd_panel_init (env_panel e) (env_panel_new e) (env_panel_reset e)
                   (env_panel_init e) y2 in
  if negb (ret3 =? ESP_OK) then Aborted y3 else
  (* 4. Display first frame (black) *)
  let y4 := set_drv (emit (EvDrawBitmap 0 0 DISP_WIDTH DISP_HEIGHT
                                        (front_buf (drv y3))) (drv y3)) y3 in
  (* 5. Initialize LVGL *)
  let y5 := lvgl_display_init (env_render_buf e) y4 in
  (* 6. Create demo UI *)
  let y6 := sys_emit SysDemoUi y5 in
  (* 7. Start LVGL task (Core 1) *)
  let y7 := sys_emit (SysTaskCreate 8192 5 1) y6 in
  Running (set_drv (emit EvLogI (drv y7)) y7).

(** ** Runs of the callback and of the task *)

(** One flush as LVGL issues it, with what the copy engine answers if the
    flush is the last of its frame. *)
Record flush_call : Type := mkFlush {
  fc_last : bool;
  fc_area : lv_area_t;
  fc_map : Z;
  fc_dma : dma_resp
}.

(** The flushes of one or more frames, one after the other. *)
Fixpoint run_flushes (cs : list flush_call) (s : state) : option state :=
  match cs with
  | [] => Some s
  | c :: cs' =>
      match lvgl_flush_cb (fc_last c) (fc_area c) (fc_map c) (fc_dma c) s with
      | Some s1 => run_flushes cs' s1
      | None => None
      end
  end.

(** Number of flushes of a run that close a frame. *)
Definition frames_closed (cs : list flush_call) : nat :=
  length (filter fc_last cs).

(** One turn of the task loop as the environment drives it: the flushes
    [lv_timer_handler] issues through the callback, the delay it then
    returns, and what [xTaskGetTickCount] returns after it. *)
Record turn : Type := mkTurn {
  turn_flushes : list flush_call;
  turn_ttn : Z;
  turn_now : Z
}.

(** Turns of [while (1)], as far as the task gets: [None] when a flush
    never returns. *)
Fixpoint lvgl_task_run (pdMS_TO_TICKS : Z -> Z) (turns : list turn)
                       (l : task_locals) (s : state)
  : option (task_locals * state) :=
  match turns with
  | [] => Some (l, s)
  | t :: turns' =>
      match run_flushes (turn_flushes t) s with
      | Some s1 =>
          let '(l1, s2) :=
            lvgl_task_iter pdMS_TO_TICKS (turn_ttn t) (turn_now t) l s1 in
          lvgl_task_run pdMS_TO_TICKS turns' l1 s2
      | None => None
      end
  end.

(** The delays passed to [vTaskDelay], most recent first. *)
Fixpoint task_delays (t : list event) : list Z :=
  match t with
  | [] => []
  | EvTaskDelay ticks :: t' => ticks :: task_delays t'
  | _ :: t' => task_delays t'
  end.

(** The frame buffers handed to the panel, most recent first. *)
Fixpoint presented (t : list event) : list Z :=
  match t with
  | [] => []
  | EvDrawBitmap _ _ _ _ fb :: t' => fb :: presented t'
  | _ :: t' => presented t'
  end.

(** ** Predicates used in the statements *)

(** The rectangle lies fully within the 720x720 display. *)
Definition area_in_bounds (area : lv_area_t) : Prop :=
  0 <= x1 area /\ x1 area <= x2 area /\ x2 area < DISP_WIDTH /\
  0 <= y1 area /\ y1 area <= y2 area /\ y2 area < DISP_HEIGHT.

Definition area_in_boundsb (area : lv_area_t) : bool :=
  (0 <=? x1 area) && (x1 area <=? x2 area) && (x2 area <? DISP_WIDTH) &&
  (0 <=? y1 area) && (y1 area <=? y2 area) && (y2 area <? DISP_HEIGHT).

(** Two frame buffers that share no byte. *)
Definition fb_disjoint (p q : Z) : Prop :=
  p + FB_SIZE <= q \/ q + FB_SIZE <= p.

Definition buffers_disjoint (s : state) : Prop :=
  fb_disjoint (work_buf s) (back_buf s) /\
  fb_disjoint (work_buf s) (front_buf s) /\
  fb_disjoint (back_buf s) (front_buf s).

(** The pixel payload of a tile ([w * h] pixels at [color_map]) shares no
    byte with the frame buffer at [fb]. *)
Definition payload_disjoint (area : lv_area_t) (color_map fb : Z) : Prop :=
  color_map + 2 * (area_w area * area_h area) <= fb \/ fb + FB_SIZE <= color_map.

(** Byte [a] belongs to the footprint of the tile in the buffer at [fb]. *)
Definition in_tile (area : lv_area_t) (fb a : Z) : bool :=
  let off := a - fb in
  let px := off / 2 in
  (0 <=? off) &&
  (y1 area <=? px / DISP_WIDTH) && (px / DISP_WIDTH <=? y2 area) &&
  (x1 area <=? px mod DISP_WIDTH) && (px mod DISP_WIDTH <=? x2 area).

(** The destinations of the [memcpy] calls recorded in a trace. *)
Fixpoint memcpy_dests (t : list event) : list (Z * Z) :=
  match t with
  | [] => []
  | EvMemcpy dst _ len :: t' => (dst, len) :: memcpy_dests t'
  | _ :: t' => memcpy_dests t'
  end.

(** The three ways [gdma_copy_buffer] can return. *)
Inductive copy_outcome (dst src len : Z) (r : dma_resp) (s s' : state) : Prop :=
| copy_fallback :
    dma_ret r <> ESP_OK ->
    mem s' = memcpy (mem s) dst src len ->
    trace s' = EvMemcpy dst src len :: EvLogW
               :: EvAsyncMemcpy dst src len (dma_ret r) :: trace s ->
    s_copy_done_sem s' = s_copy_done_sem s ->
    copy_outcome dst src len r s s'
| copy_by_dma :
    dma_ret r = ESP_OK -> dma_completes r = true ->
    mem s' = memcpy (mem s) dst src len ->
    trace s' = EvSemTake :: EvSemGiveFromISR
               :: EvAsyncMemcpy dst src len ESP_OK :: trace s ->
    s_copy_done_sem s' = false ->
    copy_outcome dst src len r s s'
| copy_stale_signal :
    dma_ret r = ESP_OK -> dma_completes r = false ->
    s_copy_done_sem s = true ->
    mem s' = mem s ->
    trace s' = EvSemTake :: EvAsyncMemcpy dst src len ESP_OK :: trace s ->
    s_copy_done_sem s' = false ->
    copy_outcome dst src len r s s'.

(** Width and height of the rectangle, in pixels. *)
Definition rect_width (area : lv_area_t) : Z := x2 area - x1 area + 1.
Definition rect_height (area : lv_area_t) : Z := y2 area - y1 area + 1.

(** The blocks a sequence of allocator answers leaves in [held]. *)
Definition blocks_of (answers : list Z) : list (Z * Z) :=
  map (fun p => (p, FB_SIZE)) (filter (fun p => negb (p =? NULL)) answers).

(** The calls made by the row loop, oldest last. *)
Definition row_copies (area : lv_area_t) (color_map work : Z) : list event :=
  rev (map (fun y => EvMemcpy (row_dst area work (Z.of_nat y))
                              (row_src area color_map (Z.of_nat y))
                              (row_len area))
           (seq 0 (Z.to_nat (area_h area)))).

(** The state once the three allocation requests have been answered. *)
Definition after_allocs (p0 p1 p2 : Z) (s : state) : state :=
  mkState p0 p1 p2 (s_copy_done_sem s) (s_copy_in_progress s) (mem s)
          (blocks_of [p2; p1; p0] ++ held s)
          ([EvAlloc FB_ALIGN FB_SIZE p2; EvAlloc FB_ALIGN FB_SIZE p1;
            EvAlloc FB_ALIGN FB_SIZE p0] ++ trace s).

(** The system [app_main] leaves running when every step succeeds. *)
Definition booted (e : boot_env) (y : system) : system :=
  let d0 := emit EvLogI (emit EvLogI (emit EvLogI (drv y))) in
  let d1 := do_memset (env_fb2 e) 0 FB_SIZE
              (do_memset (env_fb1 e) 0 FB_SIZE
                 (do_memset (env_fb0 e) 0 FB_SIZE
                    (after_allocs (env_fb0 e) (env_fb1 e) (env_fb2 e) d0))) in
  let d2 := emit EvLogI (set_sem false (emit EvLogI d1)) in
  let d3 := emit (EvDrawBitmap 0 0 DISP_WIDTH DISP_HEIGHT (env_fb1 e)) d2 in
  mkSystem (emit EvLogI d3) true (env_mcp e) (env_panel e) (env_render_buf e)
           ([SysTaskCreate 8192 5 1; SysDemoUi;
             SysDrvRegister DISP_WIDTH DISP_HEIGHT 0 0;
             SysDrawBufInit (env_render_buf e) NULL (DISP_WIDTH * BUF_LINES);
             SysMalloc (DISP_WIDTH * BUF_LINES * LV_COLOR_SIZE)
                       (env_render_buf e);
             SysLvInit;
             SysPanelInit ESP_OK; SysPanelReset ESP_OK;
             SysPanelNew DISP_WIDTH DISP_HEIGHT 16 0 ESP_OK;
             SysGdmaInstall 4 ESP_OK; SysSemCreate true] ++ calls y).

(** Calls that set up rendering: LVGL, its render buffer, the demo UI and
    the task. *)
Definition rendering_call (c : sys_event) : bool :=
  match c with
  | SysLvInit | SysMalloc _ _ | SysDrawBufInit _ _ _
  | SysDrvRegister _ _ _ _ | SysDemoUi | SysTaskCreate _ _ _ => true
  | _ => false
  end.

(** ** Concrete inputs used to exercise the statements *)

(** Three adjacent frame buffers at the start of the PSRAM window and a
    render buffer in internal RAM. *)
Definition psram0 : Z := 1006632960.                (* 0x3C000000 *)
Definition psram1 : Z := psram0 + FB_SIZE.
Definition psram2 : Z := psram0 + 2 * FB_SIZE.
Definition sram_render_buf : Z := 1070137344.       (* 0x3FC90000 *)

Definition zero_mem : memory := fun _ => 0.

(** Memory that is zero except for 100x50 white pixels in the render
    buffer. *)
Definition white_tile_mem : memory :=
  fun a => if in_range sram_render_buf (2 * (100 * 50)) a then 255 else 0.

(** The 100x50 tile at (10,10) of scenario A. *)
Definition tile_A : lv_area_t := mkArea 10 10 109 59.

(** The tile that touches the last valid pixel. *)
Definition tile_corner : lv_area_t := mkArea 700 710 719 719.

Definition running_state (m : memory) : state :=
  mkState psram0 psram1 psram2 false false m
          (blocks_of [psram2; psram1; psram0]) [].

Definition dma_ok : dma_resp := mkDma ESP_OK true.
Definition dma_busy : dma_resp := mkDma 259 false.  (* ESP_ERR_INVALID_STATE *)

(** Answers of a start-up in which every step succeeds. *)
Definition good_env : boot_env :=
  mkBootEnv psram0 psram1 psram2 true 1 ESP_OK 2 ESP_OK ESP_OK ESP_OK
            sram_render_buf.

(** The same, with the third frame buffer refused. *)
Definition no_third_buffer_env : boot_env :=
  mkBootEnv psram0 psram1 NULL true 1 ESP_OK 2 ESP_OK ESP_OK ESP_OK
            sram_render_buf.

(** Closed side conditions on concrete inputs are settled by evaluation. *)
Ltac by_evaluation :=
  vm_compute; repeat split; intros; try discriminate; try lia; auto.

Arguments wrap32 : simpl never.

(** * Properties *)

Lemma FB_SIZE_val : FB_SIZE = 1036800.
Proof. reflexivity. Qed.

Lemma wrap32_small z : 0 <= z < 2 ^ 32 -> wrap32 z = z.
Proof. intros H. unfold wrap32. apply Z.mod_small. exact H. Qed.

Lemma area_in_boundsb_spec area :
  area_in_boundsb area = true <-> area_in_bounds area.
Proof.
  unfold area_in_boundsb, area_in_bounds.
  rewrite !andb_true_iff, !Z.leb_le, !Z.ltb_lt. tauto.
Qed.

(** ** [memcpy] and [memset] *)

Lemma in_range_true base len a :
  in_range base len a = true <-> base <= a < base + len.
Proof. unfold in_range. rewrite andb_true_iff, Z.leb_le, Z.ltb_lt. tauto. Qed.

Lemma in_range_false base len a :
  in_range base len a = false <-> a < base \/ base + len <= a.
Proof.
  unfold in_range. rewrite andb_false_iff, Z.leb_gt, Z.ltb_ge. tauto.
Qed.

Lemma memcpy_inside m dst src n j :
  0 <= j < n -> memcpy m dst src n (dst + j) = m (src + j).
Proof.
  intros Hj. unfold memcpy.
  replace (in_range dst n (dst + j)) with true
    by (symmetry; apply in_range_true; lia).
  f_equal. lia.
Qed.

Lemma memcpy_outside m dst src n a :
  a < dst \/ dst + n <= a -> memcpy m dst src n a = m a.
Proof.
  intros Ha. unfold memcpy.
  apply in_range_false in Ha. now rewrite Ha.
Qed.

Lemma memset_inside m dst c n a :
  dst <= a < dst + n -> memset m dst c n a = c mod 256.
Proof.
  intros Ha. unfold memset. apply in_range_true in Ha. now rewrite Ha.
Qed.

Lemma memset_zero_stays m dst n a :
  m a = 0 -> memset m dst 0 n a = 0.
Proof.
  intros Ha. unfold memset. destruct (in_range dst n a); [reflexivity | exact Ha].
Qed.

(** ** Buffer swap *)

(** C2: after one [swap_buffers] the new front buffer is the old back
    buffer, the new back buffer is the old front buffer and the work buffer
    is the same; no byte of memory changes, and the only call made presents
    the new front buffer to the panel. *)
Theorem swap_buffers_relabels (s : state) :
  front_buf (swap_buffers s) = back_buf s /\
  back_buf (swap_buffers s) = front_buf s /\
  work_buf (swap_buffers s) = work_buf s /\
  mem (swap_buffers s) = mem s /\
  memcpy_dests (trace (swap_buffers s)) = memcpy_dests (trace s) /\
  trace (swap_buffers s) =
    EvDrawBitmap 0 0 DISP_WIDTH DISP_HEIGHT (back_buf s) :: trace s.
Proof. unfold swap_buffers. simpl. repeat split; reflexivity. Qed.

Lemma swap_buffers_involutive_roles (s : state) :
  front_buf (swap_buffers (swap_buffers s)) = front_buf s /\
  back_buf (swap_buffers (swap_buffers s)) = back_buf s.
Proof. split; reflexivity. Qed.

Lemma swap_buffers_disjoint (s : state) :
  buffers_disjoint s -> buffers_disjoint (swap_buffers s).
Proof.
  unfold buffers_disjoint, fb_disjoint. simpl. lia.
Qed.

(** ** Task pacing *)

Lemma task_delay_clamp (d : Z) : task_delay d = Z.min (Z.max d 1) 10.
Proof.
  unfold task_delay.
  destruct (Z.ltb_spec d 1); [lia |].
  destruct (d >? 10) eqn:E.
  - apply Z.gtb_lt in E. lia.
  - assert (d <= 10) by (rewrite Z.gtb_ltb in E; apply Z.ltb_ge in E; lia). lia.
Qed.

(** C9: whatever delay [d] the timer handler suggests, the task then calls
    [vTaskDelay] for [min (max d 1) 10] milliseconds (converted to ticks),
    a value between 1 and 10. *)
Theorem lvgl_task_delay_clamped
  (pdMS_TO_TICKS : Z -> Z) (d now : Z) (l : task_locals) (s : state) :
  (exists t,
     trace (snd (lvgl_task_iter pdMS_TO_TICKS d now l s)) =
       EvTaskDelay (pdMS_TO_TICKS (Z.min (Z.max d 1) 10)) :: t) /\
  task_delay d = Z.min (Z.max d 1) 10 /\
  1 <= task_delay d <= 10.
Proof.
  split; [| split].
  - unfold lvgl_task_iter.
    destruct (wrap32 (now - last_fps_tick l) >=? pdMS_TO_TICKS 5000);
      simpl; rewrite task_delay_clamp; eexists; reflexivity.
  - apply task_delay_clamp.
  - rewrite task_delay_clamp. lia.
Qed.

(** ** The row loop of the flush callback *)

Section FlushRows.

Variable area : lv_area_t.
Variable color_map : Z.

Lemma flush_rows_S (n : nat) (s : state) :
  flush_rows area color_map (S n) s =
  flush_row area color_map (flush_rows area color_map n s) n.
Proof.
  unfold flush_rows. rewrite seq_S, fold_left_app. reflexivity.
Qed.

(** The loop touches memory and the trace only. *)
Lemma flush_rows_globals (n : nat) (s : state) :
  let s' := flush_rows area color_map n s in
  work_buf s' = work_buf s /\ front_buf s' = front_buf s /\
  back_buf s' = back_buf s /\ s_copy_done_sem s' = s_copy_done_sem s /\
  s_copy_in_progress s' = s_copy_in_progress s /\ held s' = held s.
Proof.
  induction n as [| n IH]; [simpl; tauto |].
  simpl in IH |- *. rewrite flush_rows_S. unfold flush_row. simpl. exact IH.
Qed.

Lemma flush_rows_work (n : nat) (s : state) :
  work_buf (flush_rows area color_map n s) = work_buf s.
Proof. apply (flush_rows_globals n s). Qed.

(** One [memcpy] per row, each to the start of that row of the tile. *)
Lemma flush_rows_trace (n : nat) (s : state) :
  trace (flush_rows area color_map n s) =
  rev (map (fun y => EvMemcpy (row_dst area (work_buf s) (Z.of_nat y))
                              (row_src area color_map (Z.of_nat y))
                              (row_len area))
           (seq 0 n)) ++ trace s.
Proof.
  induction n as [| n IH]; [reflexivity |].
  rewrite flush_rows_S. unfold flush_row. simpl trace.
  rewrite IH, flush_rows_work, seq_S, map_app, rev_app_distr. reflexivity.
Qed.

(** A byte outside the destination range of every row copied so far is
    as it was. *)
Lemma flush_rows_outside (n : nat) (s : state) (a : Z) :
  (forall y, (y < n)%nat ->
     in_range (row_dst area (work_buf s) (Z.of_nat y)) (row_len area) a
     = false) ->
  mem (flush_rows area color_map n s) a = mem s a.
Proof.
  induction n as [| n IH]; intros Hout; [reflexivity |].
  rewrite flush_rows_S. unfold flush_row. simpl mem.
  rewrite flush_rows_work. unfold memcpy.
  rewrite (Hout n) by lia. apply IH. intros y Hy. apply Hout. lia.
Qed.

Hypothesis Hin : area_in_bounds area.

Lemma area_w_in_bounds : area_w area = x2 area - x1 area + 1.
Proof.
  unfold area_w. apply wrap32_small.
  unfold area_in_bounds, DISP_WIDTH in Hin. lia.
Qed.

Lemma area_h_in_bounds : area_h area = y2 area - y1 area + 1.
Proof.
  unfold area_h. apply wrap32_small.
  unfold area_in_bounds, DISP_HEIGHT in Hin. lia.
Qed.

Lemma row_len_in_bounds : row_len area = 2 * (x2 area - x1 area + 1).
Proof.
  unfold row_len. rewrite area_w_in_bounds.
  rewrite wrap32_small; unfold area_in_bounds, DISP_WIDTH in Hin; lia.
Qed.

Lemma row_src_in_bounds (y : Z) :
  0 <= y < area_h area ->
  row_src area color_map y = color_map + 2 * (y * area_w area).
Proof.
  intros Hy. unfold row_src. rewrite wrap32_small; [reflexivity |].
  rewrite area_h_in_bounds in Hy. rewrite area_w_in_bounds.
  unfold area_in_bounds, DISP_WIDTH, DISP_HEIGHT in Hin.
  assert (0 <= y * (x2 area - x1 area + 1) <= 720 * 720) by nia. lia.
Qed.

(** Every row of the tile lies inside the frame buffer it is written to. *)
Lemma row_dst_in_buffer (fb y : Z) :
  0 <= y < area_h area ->
  fb <= row_dst area fb y /\
  row_dst area fb y + row_len area <= fb + FB_SIZE.
Proof.
  intros Hy. rewrite row_len_in_bounds. rewrite area_h_in_bounds in Hy.
  unfold row_dst. rewrite FB_SIZE_val.
  unfold area_in_bounds, DISP_WIDTH, DISP_HEIGHT in *. lia.
Qed.

(** Rows of the tile do not overlap. *)
Lemma row_dst_separate (fb y y' : Z) :
  0 <= y < y' ->
  row_dst area fb y + row_len area <= row_dst area fb y'.
Proof.
  intros Hy. rewrite row_len_in_bounds. unfold row_dst.
  unfold area_in_bounds, DISP_WIDTH, DISP_HEIGHT in *. lia.
Qed.

(** After [n] rows, row [y < n] of the work buffer holds row [y] of the
    payload as it was before the call. *)
Lemma flush_rows_inside (n : nat) (s : state) (y j : Z) :
  payload_disjoint area color_map (work_buf s) ->
  Z.of_nat n <= area_h area ->
  0 <= y < Z.of_nat n ->
  0 <= j < row_len area ->
  mem (flush_rows area color_map n s) (row_dst area (work_buf s) y + j) =
  mem s (row_src area color_map y + j).
Proof.
  intros Hpay. induction n as [| n IH]; intros Hn Hy Hj; [lia |].
  rewrite flush_rows_S. unfold flush_row. simpl mem.
  rewrite flush_rows_work.
  destruct (Z.eq_dec y (Z.of_nat n)) as [-> | Hne].
  - rewrite memcpy_inside by exact Hj.
    apply flush_rows_outside. intros y' Hy'.
    apply in_range_false.
    assert (Hy'' : 0 <= Z.of_nat y' < area_h area) by lia.
    assert (Hyn : 0 <= Z.of_nat n < area_h area) by lia.
    pose proof (row_dst_in_buffer (work_buf s) _ Hy'') as Hd.
    rewrite (row_src_in_bounds _ Hyn).
    assert (Hrow : Z.of_nat n * area_w area + area_w area
                   <= area_w area * area_h area).
    { rewrite area_w_in_bounds, area_h_in_bounds in *.
      unfold area_in_bounds in Hin. nia. }
    assert (0 <= Z.of_nat n * area_w area).
    { rewrite area_w_in_bounds. unfold area_in_bounds in Hin. nia. }
    assert (row_len area = 2 * area_w area)
      by (rewrite row_len_in_bounds, area_w_in_bounds; reflexivity).
    unfold payload_disjoint in Hpay. lia.
  - rewrite memcpy_outside.
    + apply IH; lia.
    + left.
      assert (Hsep : 0 <= y < Z.of_nat n) by lia.
      pose proof (row_dst_separate (work_buf s) _ _ Hsep). lia.
Qed.

End FlushRows.

(** ** The copy into the back buffer *)

Lemma gdma_copy_buffer_some dst src len r s s' :
  gdma_copy_buffer dst src len r s = Some s' ->
  copy_outcome dst src len r s s' /\
  work_buf s' = work_buf s /\ front_buf s' = front_buf s /\
  back_buf s' = back_buf s /\ held s' = held s /\
  s_copy_in_progress s' = false.
Proof.
  unfold gdma_copy_buffer, esp_async_memcpy.
  destruct (Z.eqb_spec (dma_ret r) ESP_OK) as [Hok | Hne].
  - destruct (dma_completes r) eqn:Hc.
    + simpl. intros [= <-]. simpl. repeat split.
      apply copy_by_dma; auto. simpl. rewrite Hok. reflexivity.
    + cbn [negb Z.eqb ESP_OK]. unfold xSemaphoreTake. simpl.
      destruct (s_copy_done_sem s) eqn:Hs; [| discriminate].
      intros [= <-]. simpl. repeat split.
      apply copy_stale_signal; auto. simpl. rewrite Hok. reflexivity.
  - apply Z.eqb_neq in Hne as Hne'. rewrite Hne'. simpl.
    intros [= <-]. simpl. repeat split.
    apply copy_fallback; auto.
Qed.

(** With an engine that refuses or finishes the job, the call returns. *)
Lemma gdma_copy_buffer_returns dst src len r s :
  dma_responsive r ->
  exists s', gdma_copy_buffer dst src len r s = Some s' /\
             mem s' = memcpy (mem s) dst src len.
Proof.
  intros Hr. unfold gdma_copy_buffer, esp_async_memcpy.
  destruct (Z.eqb_spec (dma_ret r) ESP_OK) as [Hok | Hne].
  - destruct Hr as [Hr | Hr]; [contradiction |]. rewrite Hr. simpl.
    eexists. split; reflexivity.
  - apply Z.eqb_neq in Hne as Hne'. rewrite Hne'. simpl.
    eexists. split; reflexivity.
Qed.

(** Whatever the outcome, bytes outside the destination are left alone. *)
Lemma copy_outcome_outside dst src len r s s' a :
  copy_outcome dst src len r s s' ->
  a < dst \/ dst + len <= a ->
  mem s' a = mem s a.
Proof.
  intros [? Hm ? ? | ? ? Hm ? ? | ? ? ? Hm ? ?] Ha; rewrite Hm;
    try reflexivity; apply memcpy_outside; exact Ha.
Qed.

(** The completion signal is trusted when the engine refuses or finishes
    the job, or when no signal was pending before the call. *)
Lemma copy_outcome_inside dst src len r s s' j :
  copy_outcome dst src len r s s' ->
  dma_responsive r \/ s_copy_done_sem s = false ->
  0 <= j < len ->
  mem s' (dst + j) = mem s (src + j).
Proof.
  intros [? Hm ? ? | ? ? Hm ? ? | ? Hc Hs Hm ? ?] Hr Hj.
  - rewrite Hm. apply memcpy_inside; exact Hj.
  - rewrite Hm. apply memcpy_inside; exact Hj.
  - destruct Hr as [[Hr | Hr] | Hr]; [contradiction | congruence | congruence].
Qed.

Lemma copy_outcome_sem dst src len r s s' :
  copy_outcome dst src len r s s' ->
  s_copy_done_sem s = false -> s_copy_done_sem s' = false.
Proof. intros [? ? ? Hs | ? ? ? ? Hs | ? ? ? ? ? Hs] Hbefore; congruence. Qed.

(** ** The finalize sequence *)

Lemma finalize_frame_some r s s' :
  finalize_frame r s = Some s' ->
  exists s1,
    gdma_copy_buffer (back_buf s) (work_buf s) FB_SIZE r s = Some s1 /\
    s' = swap_buffers s1.
Proof.
  unfold finalize_frame.
  destruct (gdma_copy_buffer _ _ _ _ _) as [s1 |]; [| discriminate].
  intros [= <-]. exists s1. split; reflexivity.
Qed.

Lemma finalize_frame_returns r s :
  dma_responsive r -> exists s', finalize_frame r s = Some s'.
Proof.
  intros Hr. unfold finalize_frame.
  destruct (gdma_copy_buffer_returns (back_buf s) (work_buf s) FB_SIZE r s Hr)
    as (s1 & -> & _).
  eexists. reflexivity.
Qed.

(** Roles after finalize: back and front exchanged, work the same. *)
Lemma finalize_frame_roles r s s' :
  finalize_frame r s = Some s' ->
  work_buf s' = work_buf s /\ front_buf s' = back_buf s /\
  back_buf s' = front_buf s.
Proof.
  intros H. apply finalize_frame_some in H as (s1 & H1 & ->).
  apply gdma_copy_buffer_some in H1 as (_ & Hw & Hf & Hb & _).
  simpl. auto.
Qed.

Lemma finalize_frame_disjoint r s s' :
  finalize_frame r s = Some s' ->
  buffers_disjoint s -> buffers_disjoint s'.
Proof.
  intros H. apply finalize_frame_roles in H as (Hw & Hf & Hb).
  unfold buffers_disjoint, fb_disjoint. rewrite Hw, Hf, Hb. lia.
Qed.

(** Finalize writes the old back buffer only. *)
Lemma finalize_frame_outside r s s' a :
  finalize_frame r s = Some s' ->
  a < back_buf s \/ back_buf s + FB_SIZE <= a ->
  mem s' a = mem s a.
Proof.
  intros H Ha. apply finalize_frame_some in H as (s1 & H1 & ->).
  apply gdma_copy_buffer_some in H1 as (Hc & _).
  simpl. eapply copy_outcome_outside; eassumption.
Qed.

(** After finalize the buffer tagged front holds what the work buffer held. *)
Lemma finalize_frame_front r s s' j :
  finalize_frame r s = Some s' ->
  dma_responsive r \/ s_copy_done_sem s = false ->
  0 <= j < FB_SIZE ->
  mem s' (front_buf s' + j) = mem s (work_buf s + j).
Proof.
  intros H Hr Hj. pose proof (finalize_frame_roles _ _ _ H) as (_ & Hf & _).
  rewrite Hf.
  apply finalize_frame_some in H as (s1 & H1 & ->).
  apply gdma_copy_buffer_some in H1 as (Hc & _).
  simpl. eapply copy_outcome_inside; eassumption.
Qed.

Lemma finalize_frame_sem r s s' :
  finalize_frame r s = Some s' ->
  s_copy_done_sem s = false -> s_copy_done_sem s' = false.
Proof.
  intros H Hs. apply finalize_frame_some in H as (s1 & H1 & ->).
  apply gdma_copy_buffer_some in H1 as (Hc & _).
  simpl. eapply copy_outcome_sem; eassumption.
Qed.

(** Finalize leaves the work buffer as it is. *)
Lemma finalize_frame_work r s s' j :
  finalize_frame r s = Some s' ->
  buffers_disjoint s ->
  0 <= j < FB_SIZE ->
  mem s' (work_buf s' + j) = mem s (work_buf s + j).
Proof.
  intros H (Hwb & _) Hj.
  pose proof (finalize_frame_roles _ _ _ H) as (Hw & _). rewrite Hw.
  eapply finalize_frame_outside; [eassumption |].
  unfold fb_disjoint in Hwb. lia.
Qed.

(** ** The flush callback *)

Lemma lvgl_flush_cb_not_last area color_map r s :
  lvgl_flush_cb false area color_map r s =
  Some (emit EvFlushReady
          (flush_rows area color_map (Z.to_nat (area_h area)) s)).
Proof. reflexivity. Qed.

Lemma lvgl_flush_cb_last_some area color_map r s s' :
  lvgl_flush_cb true area color_map r s = Some s' ->
  exists s2,
    finalize_frame r (flush_rows area color_map (Z.to_nat (area_h area)) s)
    = Some s2 /\
    s' = emit EvFlushReady s2.
Proof.
  unfold lvgl_flush_cb.
  destruct (finalize_frame _ _) as [s2 |]; [| discriminate].
  intros [= <-]. exists s2. split; reflexivity.
Qed.

Lemma lvgl_flush_cb_returns is_last area color_map r s :
  dma_responsive r \/ is_last = false ->
  exists s', lvgl_flush_cb is_last area color_map r s = Some s'.
Proof.
  intros H. destruct is_last.
  - destruct H as [H | H]; [| discriminate].
    unfold lvgl_flush_cb.
    destruct (finalize_frame_returns r
                (flush_rows area color_map (Z.to_nat (area_h area)) s) H)
      as (s2 & ->).
    eexists. reflexivity.
  - eexists. reflexivity.
Qed.

(** The row loop run to the end puts every row of the payload in place. *)
Lemma flush_rows_tile area color_map s row j :
  area_in_bounds area ->
  payload_disjoint area color_map (work_buf s) ->
  0 <= row < rect_height area ->
  0 <= j < rect_width area * 2 ->
  mem (flush_rows area color_map (Z.to_nat (area_h area)) s)
      (work_buf s + ((y1 area + row) * DISP_WIDTH + x1 area) * 2 + j) =
  mem s (color_map + row * (rect_width area * 2) + j).
Proof.
  intros Hin Hpay Hrow Hj. unfold rect_height, rect_width in *.
  pose proof (area_h_in_bounds area Hin) as Hh.
  pose proof (area_w_in_bounds area Hin) as Hw.
  pose proof (row_len_in_bounds area Hin) as Hl.
  replace (work_buf s + ((y1 area + row) * DISP_WIDTH + x1 area) * 2 + j)
    with (row_dst area (work_buf s) row + j) by (unfold row_dst; lia).
  rewrite (flush_rows_inside area color_map Hin _ s row j); try lia.
  - rewrite (row_src_in_bounds area color_map Hin) by lia.
    rewrite Hw. f_equal. lia.
  - exact Hpay.
Qed.

(** The row loop writes inside the work buffer only. *)
Lemma flush_rows_other_buffer area color_map n s a :
  area_in_bounds area ->
  Z.of_nat n <= area_h area ->
  a < work_buf s \/ work_buf s + FB_SIZE <= a ->
  mem (flush_rows area color_map n s) a = mem s a.
Proof.
  intros Hin Hn Ha. apply flush_rows_outside. intros y Hy.
  apply in_range_false.
  assert (Hy' : 0 <= Z.of_nat y < area_h area) by lia.
  pose proof (row_dst_in_buffer area Hin (work_buf s) _ Hy'). lia.
Qed.

Lemma flush_rows_disjoint area color_map n s :
  buffers_disjoint s -> buffers_disjoint (flush_rows area color_map n s).
Proof.
  pose proof (flush_rows_globals area color_map n s) as (Hw & Hf & Hb & _).
  unfold buffers_disjoint. rewrite Hw, Hf, Hb. tauto.
Qed.

Lemma flush_rows_sem area color_map n s :
  s_copy_done_sem (flush_rows area color_map n s) = s_copy_done_sem s.
Proof. apply (flush_rows_globals area color_map n s). Qed.

(** Byte offsets of the tile are offsets of the frame buffer. *)
Lemma tile_offset_in_buffer area row j :
  area_in_bounds area ->
  0 <= row < rect_height area ->
  0 <= j < rect_width area * 2 ->
  0 <= ((y1 area + row) * DISP_WIDTH + x1 area) * 2 + j < FB_SIZE.
Proof.
  unfold area_in_bounds, rect_height, rect_width. rewrite FB_SIZE_val.
  unfold DISP_WIDTH, DISP_HEIGHT. lia.
Qed.

(** After the last flush of a frame, the work buffer still holds the tile
    and the buffer tagged front holds it too. *)
Lemma lvgl_flush_cb_last_tile area color_map r s s' row j :
  area_in_bounds area ->
  buffers_disjoint s ->
  payload_disjoint area color_map (work_buf s) ->
  lvgl_flush_cb true area color_map r s = Some s' ->
  0 <= row < rect_height area ->
  0 <= j < rect_width area * 2 ->
  mem s' (work_buf s' + (((y1 area + row) * DISP_WIDTH + x1 area) * 2 + j))
  = mem s (color_map + row * (rect_width area * 2) + j) /\
  (dma_responsive r \/ s_copy_done_sem s = false ->
   mem s' (front_buf s' + (((y1 area + row) * DISP_WIDTH + x1 area) * 2 + j))
   = mem s (color_map + row * (rect_width area * 2) + j)).
Proof.
  intros Hin Hdis Hpay Hcb Hrow Hj.
  apply lvgl_flush_cb_last_some in Hcb as (s2 & Hfin & ->).
  pose proof (tile_offset_in_buffer area row j Hin Hrow Hj) as Hoff.
  pose proof (flush_rows_tile area color_map s row j Hin Hpay Hrow Hj) as Ht.
  rewrite <- Z.add_assoc in Ht.
  set (s1 := flush_rows area color_map (Z.to_nat (area_h area)) s) in *.
  assert (Hw1 : work_buf s1 = work_buf s) by apply flush_rows_work.
  simpl. split.
  - rewrite (finalize_frame_work r s1 s2 _ Hfin); [| | exact Hoff].
    + rewrite Hw1. exact Ht.
    + apply flush_rows_disjoint. exact Hdis.
  - intros Hr.
    rewrite (finalize_frame_front r s1 s2 _ Hfin); [| | exact Hoff].
    + rewrite Hw1. exact Ht.
    + destruct Hr as [Hr | Hr]; [left; exact Hr | right].
      unfold s1. rewrite flush_rows_sem. exact Hr.
Qed.

(** C1: for a tile inside the 720x720 display whose payload is the
    [rect_width * rect_height * 2] bytes at [color_map], once the flush
    callback has returned, row [row] of the payload is found in the work
    buffer at byte offset [((y1 + row) * DISP_WIDTH + x1) * 2], for every
    row of the tile; and the callback does return whenever it is not the
    last flush or the copy engine refuses or finishes its job. *)
Theorem lvgl_flush_cb_row_stride is_last area color_map r s :
  area_in_bounds area ->
  buffers_disjoint s ->
  payload_disjoint area color_map (work_buf s) ->
  (dma_responsive r \/ is_last = false ->
   exists s', lvgl_flush_cb is_last area color_map r s = Some s') /\
  (forall s', lvgl_flush_cb is_last area color_map r s = Some s' ->
   forall row j,
     0 <= row < rect_height area ->
     0 <= j < rect_width area * 2 ->
     mem s' (work_buf s' + ((y1 area + row) * DISP_WIDTH + x1 area) * 2 + j)
     = mem s (color_map + row * (rect_width area * 2) + j)).
Proof.
  intros Hin Hdis Hpay. split.
  - apply lvgl_flush_cb_returns.
  - intros s' Hcb row j Hrow Hj. destruct is_last.
    + rewrite <- Z.add_assoc.
      apply (lvgl_flush_cb_last_tile area color_map r s s' row j); assumption.
    + rewrite lvgl_flush_cb_not_last in Hcb. injection Hcb as <-.
      simpl. rewrite flush_rows_work.
      apply flush_rows_tile; assumption.
Qed.

Lemma tile_A_in_bounds : area_in_bounds tile_A.
Proof. by_evaluation. Qed.

Lemma tile_corner_in_bounds : area_in_bounds tile_corner.
Proof. by_evaluation. Qed.

Lemma running_state_disjoint m : buffers_disjoint (running_state m).
Proof.
  pose proof FB_SIZE_val as Hsz.
  unfold buffers_disjoint, fb_disjoint, running_state, psram1, psram2, psram0.
  cbn [work_buf back_buf front_buf]. lia.
Qed.

Lemma render_buf_disjoint area :
  payload_disjoint area sram_render_buf psram0.
Proof. right. by_evaluation. Qed.

Lemma white_tile_mem_white i :
  0 <= i < 100 * 50 -> read16 white_tile_mem (sram_render_buf + 2 * i) = 65535.
Proof.
  intros Hi. unfold read16, white_tile_mem.
  replace (in_range sram_render_buf (2 * (100 * 50)) (sram_render_buf + 2 * i))
    with true by (symmetry; apply in_range_true; lia).
  replace (in_range sram_render_buf (2 * (100 * 50))
             (sram_render_buf + 2 * i + 1))
    with true by (symmetry; apply in_range_true; lia).
  reflexivity.
Qed.

Lemma lvgl_flush_cb_row_stride_witness :
  exists s',
    lvgl_flush_cb true tile_A sram_render_buf dma_ok
                  (running_state white_tile_mem) = Some s' /\
    mem s' (work_buf s' + ((10 + 49) * 720 + 10) * 2 + 199) =
    white_tile_mem (sram_render_buf + 49 * 200 + 199).
Proof.
  destruct (lvgl_flush_cb_row_stride true tile_A sram_render_buf dma_ok
              (running_state white_tile_mem)
              tile_A_in_bounds (running_state_disjoint _)
              (render_buf_disjoint tile_A)) as [Hret Hrows].
  destruct Hret as [s' Hs']; [left; right; reflexivity |].
  exists s'. split; [exact Hs' |].
  apply (Hrows s' Hs' 49 199); by_evaluation.
Defined.

(** ** Scenario A *)

(** C3: with frame buffers of 720*720*2 = 1,036,800 bytes, flushing the
    100x50 tile at (10,10) whose pixels are all 0xFFFF as the last tile of
    the frame leaves 0xFFFF in rows 10..59, columns 10..109 of the work
    buffer once the rows are copied, and once the callback has finalized
    (copy work to back, wait, swap) the buffer tagged front holds 0xFFFF
    over the same region. *)
Theorem scenario_A_white_tile color_map r s :
  buffers_disjoint s ->
  payload_disjoint tile_A color_map (work_buf s) ->
  dma_responsive r ->
  (forall i, 0 <= i < 100 * 50 ->
     read16 (mem s) (color_map + 2 * i) = 65535) ->
  FB_SIZE = 1036800 /\
  (let s1 := flush_rows tile_A color_map (Z.to_nat (area_h tile_A)) s in
   forall row col, 10 <= row <= 59 -> 10 <= col <= 109 ->
     read16 (mem s1) (work_buf s1 + 2 * (row * DISP_WIDTH + col)) = 65535) /\
  exists s',
    lvgl_flush_cb true tile_A color_map r s = Some s' /\
    forall row col, 10 <= row <= 59 -> 10 <= col <= 109 ->
      read16 (mem s') (work_buf s' + 2 * (row * DISP_WIDTH + col)) = 65535 /\
      read16 (mem s') (front_buf s' + 2 * (row * DISP_WIDTH + col)) = 65535.
Proof.
  intros Hdis Hpay Hr Hwhite.
  assert (Hpix : forall row col, 10 <= row <= 59 -> 10 <= col <= 109 ->
            mem s (color_map + (row - 10) * (rect_width tile_A * 2)
                   + 2 * (col - 10))
            + 256 * mem s (color_map + (row - 10) * (rect_width tile_A * 2)
                           + (2 * (col - 10) + 1)) = 65535).
  { intros row col Hrow Hcol.
    specialize (Hwhite ((row - 10) * 100 + (col - 10))).
    unfold read16 in Hwhite. change (rect_width tile_A) with 100.
    replace (color_map + (row - 10) * (100 * 2) + 2 * (col - 10))
      with (color_map + 2 * ((row - 10) * 100 + (col - 10))) by lia.
    replace (color_map + (row - 10) * (100 * 2) + (2 * (col - 10) + 1))
      with (color_map + 2 * ((row - 10) * 100 + (col - 10)) + 1) by lia.
    apply Hwhite. lia. }
  split; [reflexivity | split].
  - intros s1 row col Hrow Hcol. unfold read16, s1.
    rewrite flush_rows_work.
    pose proof (flush_rows_tile tile_A color_map s (row - 10) (2 * (col - 10))
                  tile_A_in_bounds Hpay) as H0.
    pose proof (flush_rows_tile tile_A color_map s (row - 10)
                  (2 * (col - 10) + 1) tile_A_in_bounds Hpay) as H1.
    change (rect_height tile_A) with 50 in H0, H1.
    change (rect_width tile_A * 2) with 200 in H0, H1 at 1.
    change (y1 tile_A) with 10 in H0, H1.
    change (x1 tile_A) with 10 in H0, H1.
    replace (work_buf s + 2 * (row * DISP_WIDTH + col))
      with (work_buf s + ((10 + (row - 10)) * DISP_WIDTH + 10) * 2
            + 2 * (col - 10)) by lia.
    replace (work_buf s + ((10 + (row - 10)) * DISP_WIDTH + 10) * 2
             + 2 * (col - 10) + 1)
      with (work_buf s + ((10 + (row - 10)) * DISP_WIDTH + 10) * 2
            + (2 * (col - 10) + 1)) by lia.
    rewrite H0, H1 by lia. apply Hpix; assumption.
  - destruct (lvgl_flush_cb_returns true tile_A color_map r s (or_introl Hr))
      as (s' & Hs').
    exists s'. split; [exact Hs' |].
    intros row col Hrow Hcol. unfold read16.
    pose proof (lvgl_flush_cb_last_tile tile_A color_map r s s' (row - 10)
                  (2 * (col - 10)) tile_A_in_bounds Hdis Hpay Hs') as H0.
    pose proof (lvgl_flush_cb_last_tile tile_A color_map r s s' (row - 10)
                  (2 * (col - 10) + 1) tile_A_in_bounds Hdis Hpay Hs') as H1.
    change (rect_height tile_A) with 50 in H0, H1.
    change (rect_width tile_A * 2) with 200 in H0, H1 at 1.
    change (y1 tile_A) with 10 in H0, H1.
    change (x1 tile_A) with 10 in H0, H1.
    destruct H0 as [H0w H0f]; [lia | lia |].
    destruct H1 as [H1w H1f]; [lia | lia |].
    specialize (H0f (or_introl Hr)). specialize (H1f (or_introl Hr)).
    split.
    + replace (work_buf s' + 2 * (row * DISP_WIDTH + col))
        with (work_buf s' + (((10 + (row - 10)) * DISP_WIDTH + 10) * 2
              + 2 * (col - 10))) by lia.
      replace (work_buf s' + (((10 + (row - 10)) * DISP_WIDTH + 10) * 2
               + 2 * (col - 10)) + 1)
        with (work_buf s' + (((10 + (row - 10)) * DISP_WIDTH + 10) * 2
              + (2 * (col - 10) + 1))) by lia.
      rewrite H0w, H1w. apply Hpix; assumption.
    + replace (front_buf s' + 2 * (row * DISP_WIDTH + col))
        with (front_buf s' + (((10 + (row - 10)) * DISP_WIDTH + 10) * 2
              + 2 * (col - 10))) by lia.
      replace (front_buf s' + (((10 + (row - 10)) * DISP_WIDTH + 10) * 2
               + 2 * (col - 10)) + 1)
        with (front_buf s' + (((10 + (row - 10)) * DISP_WIDTH + 10) * 2
              + (2 * (col - 10) + 1))) by lia.
      rewrite H0f, H1f. apply Hpix; assumption.
Qed.

Lemma scenario_A_white_tile_witness :
  exists s',
    lvgl_flush_cb true tile_A sram_render_buf dma_ok
                  (running_state white_tile_mem) = Some s' /\
    read16 (mem s') (front_buf s' + 2 * (59 * DISP_WIDTH + 109)) = 65535.
Proof.
  destruct (scenario_A_white_tile sram_render_buf dma_ok
              (running_state white_tile_mem)
              (running_state_disjoint _)
              (render_buf_disjoint tile_A)
              (or_intror eq_refl)
              white_tile_mem_white) as (_ & _ & s' & Hs' & Hpx).
  exists s'. split; [exact Hs' |].
  apply (Hpx 59 109); by_evaluation.
Defined.

(** ** Finalize twice *)

(** C7: from a state whose three buffers share no byte and in which no
    completion signal is pending, two finalize sequences in a row (no tile
    written in between) leave in the buffer tagged front after the second
    the same bytes as were in the buffer tagged front after the first; and
    both sequences do complete when the copy engine refuses or finishes
    each job. *)
Theorem finalize_frame_idempotent r1 r2 s :
  buffers_disjoint s ->
  s_copy_done_sem s = false ->
  (dma_responsive r1 -> dma_responsive r2 ->
   exists s1 s2, finalize_frame r1 s = Some s1 /\
                 finalize_frame r2 s1 = Some s2) /\
  (forall s1 s2,
     finalize_frame r1 s = Some s1 ->
     finalize_frame r2 s1 = Some s2 ->
     forall j, 0 <= j < FB_SIZE ->
       mem s2 (front_buf s2 + j) = mem s1 (front_buf s1 + j)).
Proof.
  intros Hdis Hsem. split.
  - intros Hr1 Hr2.
    destruct (finalize_frame_returns r1 s Hr1) as (s1 & H1).
    destruct (finalize_frame_returns r2 s1 Hr2) as (s2 & H2).
    exists s1, s2. split; assumption.
  - intros s1 s2 H1 H2 j Hj.
    rewrite (finalize_frame_front r2 s1 s2 j H2); [| | exact Hj].
    + rewrite (finalize_frame_front r1 s s1 j H1); [| | exact Hj].
      * apply (finalize_frame_work r1 s s1 j H1 Hdis Hj).
      * right. exact Hsem.
    + right. apply (finalize_frame_sem r1 s s1 H1 Hsem).
Qed.

Lemma finalize_frame_idempotent_witness :
  exists s1 s2,
    finalize_frame dma_busy (running_state white_tile_mem) = Some s1 /\
    finalize_frame dma_ok s1 = Some s2 /\
    front_buf s1 = psram2 /\ front_buf s2 = psram1 /\
    mem s2 (front_buf s2 + 1036799) = mem s1 (front_buf s1 + 1036799).
Proof.
  destruct (finalize_frame_idempotent dma_busy dma_ok
              (running_state white_tile_mem)
              (running_state_disjoint _) eq_refl) as [Hret Hsame].
  destruct Hret as (s1 & s2 & H1 & H2).
  - left. by_evaluation.
  - right. reflexivity.
  - exists s1, s2. repeat split; try assumption.
    + apply finalize_frame_roles in H1 as (_ & Hf & _). exact Hf.
    + apply finalize_frame_roles in H1 as (_ & _ & Hb).
      apply finalize_frame_roles in H2 as (_ & Hf & _).
      rewrite Hf, Hb. reflexivity.
    + apply (Hsame s1 s2 H1 H2). by_evaluation.
Defined.

(** ** Submission failure *)

(** C4: when [esp_async_memcpy] does not return [ESP_OK],
    [gdma_copy_buffer] copies the bytes itself with [memcpy] and returns:
    it never takes the completion semaphore, the destination then holds the
    bytes of the source (and equals it afterwards when the two regions do
    not overlap), the copy-in-progress flag is cleared, and the caller gets
    no error: a last flush goes on to swap and to acknowledge. *)
Theorem gdma_copy_buffer_fallback dst src len r s :
  dma_ret r <> ESP_OK ->
  (exists s',
     gdma_copy_buffer dst src len r s = Some s' /\
     trace s' = EvMemcpy dst src len :: EvLogW
                :: EvAsyncMemcpy dst src len (dma_ret r) :: trace s /\
     s_copy_in_progress s' = false /\
     s_copy_done_sem s' = s_copy_done_sem s /\
     (forall j, 0 <= j < len -> mem s' (dst + j) = mem s (src + j)) /\
     (dst + len <= src \/ src + len <= dst ->
      forall j, 0 <= j < len -> mem s' (dst + j) = mem s' (src + j))) /\
  (forall area color_map,
   exists s' t,
     lvgl_flush_cb true area color_map r s = Some s' /\
     trace s' = EvFlushReady
                :: EvDrawBitmap 0 0 DISP_WIDTH DISP_HEIGHT (back_buf s)
                :: EvMemcpy (back_buf s) (work_buf s) FB_SIZE :: t /\
     front_buf s' = back_buf s).
Proof.
  intros Hne.
  assert (Hr : dma_responsive r) by (left; exact Hne).
  split.
  - destruct (gdma_copy_buffer_returns dst src len r s Hr) as (s' & Hs' & Hm).
    exists s'. split; [exact Hs' |].
    apply gdma_copy_buffer_some in Hs' as (Hc & _ & _ & _ & _ & Hp).
    destruct Hc as [_ _ Ht Hs | Hok _ _ _ _ | Hok _ _ _ _ _];
      try contradiction.
    repeat split; try assumption.
    + intros j Hj. rewrite Hm. apply memcpy_inside. exact Hj.
    + intros Hsep j Hj. rewrite Hm. rewrite memcpy_inside by exact Hj.
      rewrite memcpy_outside by lia. reflexivity.
  - intros area color_map.
    destruct (lvgl_flush_cb_returns true area color_map r s (or_introl Hr))
      as (s' & Hs').
    exists s'.
    pose proof Hs' as Hcb.
    apply lvgl_flush_cb_last_some in Hcb as (s2 & Hfin & ->).
    apply finalize_frame_some in Hfin as (s1 & Hcopy & ->).
    apply gdma_copy_buffer_some in Hcopy as (Hc & _ & _ & Hb & _).
    destruct Hc as [_ _ Ht _ | Hok _ _ _ _ | Hok _ _ _ _ _];
      try contradiction.
    pose proof (flush_rows_globals area color_map (Z.to_nat (area_h area)) s)
      as (Hw0 & _ & Hb0 & _).
    simpl in Hw0, Hb0. rewrite Hw0, Hb0 in Ht.
    eexists. split; [exact Hs' |]. simpl. rewrite Ht, Hb, Hb0.
    split; reflexivity.
Qed.

Lemma gdma_copy_buffer_fallback_witness :
  exists s',
    gdma_copy_buffer psram2 psram0 FB_SIZE dma_busy
                     (running_state white_tile_mem) = Some s' /\
    mem s' (psram2 + 7) = mem s' (psram0 + 7).
Proof.
  destruct (gdma_copy_buffer_fallback psram2 psram0 FB_SIZE dma_busy
              (running_state white_tile_mem)) as [(s' & Hs' & _ & _ & _ & _ & Heq) _].
  - by_evaluation.
  - exists s'. split; [exact Hs' |].
    apply Heq; [right |]; by_evaluation.
Defined.

(** ** Footprint of a tile *)

Section Footprint.

Variable area : lv_area_t.
Hypothesis Hin : area_in_bounds area.

(** A byte of row [y] of the tile is a byte of the footprint. *)
Lemma row_in_tile (fb y a : Z) :
  0 <= y < area_h area ->
  in_range (row_dst area fb y) (row_len area) a = true ->
  in_tile area fb a = true.
Proof.
  intros Hy Ha. apply in_range_true in Ha.
  rewrite (row_len_in_bounds area Hin) in Ha.
  rewrite (area_h_in_bounds area Hin) in Hy.
  unfold row_dst in Ha. unfold in_tile.
  unfold area_in_bounds, DISP_WIDTH, DISP_HEIGHT in *.
  repeat rewrite andb_true_iff. repeat rewrite Z.leb_le.
  Z.to_euclidean_division_equations. lia.
Qed.

(** A byte of the footprint is a byte of one of the rows copied. *)
Lemma tile_in_row (fb a : Z) :
  in_tile area fb a = true ->
  let y := (a - fb) / 2 / DISP_WIDTH - y1 area in
  0 <= y < area_h area /\
  in_range (row_dst area fb y) (row_len area) a = true.
Proof.
  intros Ha y. subst y.
  rewrite (row_len_in_bounds area Hin), (area_h_in_bounds area Hin).
  rewrite in_range_true. unfold row_dst.
  unfold in_tile in Ha.
  repeat rewrite andb_true_iff in Ha. repeat rewrite Z.leb_le in Ha.
  unfold area_in_bounds, DISP_WIDTH, DISP_HEIGHT in *.
  Z.to_euclidean_division_equations. lia.
Qed.

(** The footprint lies inside the frame buffer. *)
Lemma tile_in_buffer (fb a : Z) :
  in_tile area fb a = true -> 0 <= a - fb < FB_SIZE.
Proof.
  intros Ha. apply tile_in_row in Ha as (Hy & Ha).
  apply in_range_true in Ha.
  pose proof (row_dst_in_buffer area Hin fb _ Hy). lia.
Qed.

(** Outside the footprint the row loop changes nothing. *)
Lemma flush_rows_off_tile color_map (n : nat) (s : state) (a : Z) :
  Z.of_nat n <= area_h area ->
  in_tile area (work_buf s) a = false ->
  mem (flush_rows area color_map n s) a = mem s a.
Proof.
  intros Hn Ha. apply flush_rows_outside. intros y Hy.
  destruct (in_range _ _ a) eqn:E; [| reflexivity].
  apply row_in_tile in E; [congruence | lia].
Qed.

End Footprint.

Lemma memcpy_dests_app (t u : list event) :
  memcpy_dests (t ++ u) = memcpy_dests t ++ memcpy_dests u.
Proof.
  induction t as [| e t IH]; [reflexivity |].
  destruct e; simpl; rewrite IH; reflexivity.
Qed.

Lemma memcpy_dests_In (t : list event) (d n : Z) :
  In (d, n) (memcpy_dests t) -> exists src, In (EvMemcpy d src n) t.
Proof.
  induction t as [| e t IH]; simpl; [tauto |].
  destruct e; simpl; try (intros H; destruct (IH H) as (from & Hs);
                          exists from; right; exact Hs).
  intros [[= -> ->] | H].
  - eexists. left. reflexivity.
  - destruct (IH H) as (src' & Hs). exists src'. right. exact Hs.
Qed.

Lemma row_copies_In area color_map work e :
  In e (row_copies area color_map work) ->
  exists y, 0 <= y < area_h area /\
            e = EvMemcpy (row_dst area work y) (row_src area color_map y)
                         (row_len area).
Proof.
  unfold row_copies. rewrite <- in_rev, in_map_iff.
  intros (y & <- & Hy). apply in_seq in Hy.
  exists (Z.of_nat y). split; [lia | reflexivity].
Qed.

(** C8: for a tile inside the display (the tile that touches pixel
    (719,719) included), the row loop of the flush callback makes one
    [memcpy] per row of the tile, to byte offset
    [((y1 + row) * DISP_WIDTH + x1) * 2] of the work buffer and of
    [rect_width * 2] bytes; every byte such a call writes is at an offset
    of the work buffer that is at least 0 and strictly below
    [FB_SIZE = 720*720*2] and belongs to the footprint of the tile; and no
    byte outside the footprint changes. *)
Theorem flush_rows_no_out_of_bounds area color_map s :
  area_in_bounds area ->
  let s' := flush_rows area color_map (Z.to_nat (area_h area)) s in
  exists new,
    trace s' = new ++ trace s /\
    (forall e, In e new ->
       exists row src,
         0 <= row < rect_height area /\
         e = EvMemcpy
               (work_buf s + ((y1 area + row) * DISP_WIDTH + x1 area) * 2)
               src (rect_width area * 2)) /\
    (forall d n a, In (d, n) (memcpy_dests new) -> d <= a < d + n ->
       0 <= a - work_buf s < FB_SIZE /\ FB_SIZE = 720 * 720 * 2 /\
       in_tile area (work_buf s) a = true) /\
    (forall a, in_tile area (work_buf s) a = false -> mem s' a = mem s a).
Proof.
  intros Hin s'. exists (row_copies area color_map (work_buf s)).
  split; [apply flush_rows_trace | split; [| split]].
  - intros e He. apply row_copies_In in He as (y & Hy & ->).
    exists y, (row_src area color_map y).
    rewrite (row_len_in_bounds area Hin).
    rewrite (area_h_in_bounds area Hin) in Hy.
    split; [exact Hy |]. unfold row_dst, rect_width. f_equal; lia.
  - intros d n a Hd Ha.
    apply memcpy_dests_In in Hd as (src & Hd).
    apply row_copies_In in Hd as (y & Hy & [= -> _ ->]).
    assert (Ht : in_tile area (work_buf s) a = true).
    { apply (row_in_tile area Hin _ y); [exact Hy |].
      apply in_range_true. exact Ha. }
    split; [apply (tile_in_buffer area Hin _ _ Ht) | split];
      [reflexivity | exact Ht].
  - intros a Ha. apply (flush_rows_off_tile area Hin); [| exact Ha].
    pose proof (area_h_in_bounds area Hin). unfold area_in_bounds in Hin. lia.
Qed.

Lemma flush_rows_no_out_of_bounds_witness :
  let s := running_state white_tile_mem in
  let s' := flush_rows tile_corner sram_render_buf
                       (Z.to_nat (area_h tile_corner)) s in
  exists new,
    trace s' = new ++ trace s /\
    (forall d n a, In (d, n) (memcpy_dests new) -> d <= a < d + n ->
       0 <= a - psram0 < 1036800) /\
    mem s' (psram0 + 1036800) = white_tile_mem (psram0 + 1036800).
Proof.
  intros s s'.
  destruct (flush_rows_no_out_of_bounds tile_corner sram_render_buf s
              tile_corner_in_bounds) as (new & Ht & _ & Hw & Hout).
  exists new. split; [exact Ht | split].
  - intros d n a Hd Ha. apply (Hw d n a Hd Ha).
  - apply Hout. by_evaluation.
Defined.

(** ** A flush that is not the last of its frame *)

(** C10: a flush with [lv_disp_flush_is_last] false, for a tile inside the
    display and buffers that share no byte, returns with the three buffer
    pointers as they were and every byte of the back and front buffers as
    it was; a byte that changed belongs to the footprint of the tile, which
    lies in the work buffer; the calls made are the row copies followed by
    [lv_disp_flush_ready]. *)
Theorem lvgl_flush_cb_not_last_frame area color_map r s :
  area_in_bounds area ->
  buffers_disjoint s ->
  exists s',
    lvgl_flush_cb false area color_map r s = Some s' /\
    (work_buf s' = work_buf s /\ back_buf s' = back_buf s /\
     front_buf s' = front_buf s) /\
    (forall j, 0 <= j < FB_SIZE ->
       mem s' (back_buf s' + j) = mem s (back_buf s + j) /\
       mem s' (front_buf s' + j) = mem s (front_buf s + j)) /\
    (forall a, mem s' a <> mem s a ->
       in_tile area (work_buf s) a = true /\
       work_buf s <= a < work_buf s + FB_SIZE) /\
    trace s' =
      EvFlushReady :: row_copies area color_map (work_buf s) ++ trace s.
Proof.
  intros Hin (Hwb & Hwf & Hbf).
  eexists. split; [apply lvgl_flush_cb_not_last |].
  pose proof (flush_rows_globals area color_map (Z.to_nat (area_h area)) s)
    as (Hw & Hf & Hb & _).
  pose proof (area_h_in_bounds area Hin) as Hh.
  assert (Hn : Z.of_nat (Z.to_nat (area_h area)) <= area_h area)
    by (unfold area_in_bounds in Hin; lia).
  simpl in Hw, Hf, Hb |- *. rewrite Hw, Hf, Hb.
  split; [tauto | split; [| split]].
  - unfold fb_disjoint in Hwb, Hwf.
    intros j Hj.
    split; apply (flush_rows_other_buffer area color_map _ s _ Hin Hn); lia.
  - intros a Ha.
    destruct (in_tile area (work_buf s) a) eqn:E.
    + split; [reflexivity |].
      pose proof (tile_in_buffer area Hin _ _ E). lia.
    + exfalso. apply Ha.
      apply (flush_rows_off_tile area Hin); assumption.
  - f_equal. apply flush_rows_trace.
Qed.

Lemma lvgl_flush_cb_not_last_frame_witness :
  exists s',
    lvgl_flush_cb false tile_A sram_render_buf dma_ok
                  (running_state white_tile_mem) = Some s' /\
    back_buf s' = psram2 /\ front_buf s' = psram1 /\ work_buf s' = psram0 /\
    mem s' (back_buf s' + 14420) = white_tile_mem (psram2 + 14420).
Proof.
  destruct (lvgl_flush_cb_not_last_frame tile_A sram_render_buf dma_ok
              (running_state white_tile_mem)
              tile_A_in_bounds (running_state_disjoint _))
    as (s' & Hs' & (Hw & Hb & Hf) & Hbufs & _).
  exists s'. repeat split; try assumption.
  apply (Hbufs 14420). by_evaluation.
Defined.

(** The flush callback keeps the three buffers apart. *)
Lemma lvgl_flush_cb_disjoint is_last area color_map r s s' :
  lvgl_flush_cb is_last area color_map r s = Some s' ->
  buffers_disjoint s -> buffers_disjoint s'.
Proof.
  intros Hcb Hdis. destruct is_last.
  - apply lvgl_flush_cb_last_some in Hcb as (s2 & Hfin & ->).
    apply (finalize_frame_disjoint _ _ _ Hfin).
    apply flush_rows_disjoint. exact Hdis.
  - rewrite lvgl_flush_cb_not_last in Hcb. injection Hcb as <-.
    apply (flush_rows_disjoint area color_map _ s Hdis).
Qed.

(** ** Allocation *)

Lemma heap_caps_aligned_alloc_null align size s :
  heap_caps_aligned_alloc align size NULL s =
  (NULL, emit (EvAlloc align size NULL) s).
Proof. reflexivity. Qed.

Lemma heap_caps_aligned_alloc_block align size p s :
  p <> NULL ->
  heap_caps_aligned_alloc align size p s =
  (p, set_held ((p, size) :: held s) (emit (EvAlloc align size p) s)).
Proof.
  intros Hp. unfold heap_caps_aligned_alloc.
  apply Z.eqb_neq in Hp. rewrite Hp. reflexivity.
Qed.

(** [allocate_buffers] makes its three requests first and looks at the
    answers afterwards. *)
Lemma allocate_buffers_eq p0 p1 p2 s :
  allocate_buffers p0 p1 p2 s =
  if (p0 =? NULL) || (p1 =? NULL) || (p2 =? NULL)
  then (ESP_ERR_NO_MEM, emit EvLogE (after_allocs p0 p1 p2 s))
  else (ESP_OK,
        emit EvLogI
          (do_memset p2 0 FB_SIZE
             (do_memset p1 0 FB_SIZE
                (do_memset p0 0 FB_SIZE (after_allocs p0 p1 p2 s))))).
Proof.
  unfold allocate_buffers, heap_caps_aligned_alloc, after_allocs, blocks_of.
  destruct (Z.eqb_spec p0 NULL) as [-> | H0];
  destruct (Z.eqb_spec p1 NULL) as [-> | H1];
  destruct (Z.eqb_spec p2 NULL) as [-> | H2];
  cbn -[FB_SIZE FB_ALIGN Z.eqb NULL];
  repeat match goal with
         | H : _ <> NULL |- _ => apply Z.eqb_neq in H; rewrite ?H; clear H
         end;
  rewrite ?Z.eqb_refl; reflexivity.
Qed.

Lemma allocate_buffers_failed p0 p1 p2 s :
  p0 = NULL \/ p1 = NULL \/ p2 = NULL ->
  allocate_buffers p0 p1 p2 s =
  (ESP_ERR_NO_MEM, emit EvLogE (after_allocs p0 p1 p2 s)).
Proof.
  intros H. rewrite allocate_buffers_eq.
  replace ((p0 =? NULL) || (p1 =? NULL) || (p2 =? NULL)) with true;
    [reflexivity |].
  symmetry. rewrite !orb_true_iff, !Z.eqb_eq. tauto.
Qed.

Lemma allocate_buffers_succeeded p0 p1 p2 s :
  p0 <> NULL -> p1 <> NULL -> p2 <> NULL ->
  allocate_buffers p0 p1 p2 s =
  (ESP_OK,
   emit EvLogI
     (do_memset p2 0 FB_SIZE
        (do_memset p1 0 FB_SIZE
           (do_memset p0 0 FB_SIZE (after_allocs p0 p1 p2 s))))).
Proof.
  intros H0 H1 H2. rewrite allocate_buffers_eq.
  apply Z.eqb_neq in H0, H1, H2. rewrite H0, H1, H2. reflexivity.
Qed.

(** Blocks that the allocator keeps apart give buffers that share no byte. *)
Lemma allocate_buffers_disjoint p0 p1 p2 s :
  fb_disjoint p0 p1 -> fb_disjoint p0 p2 -> fb_disjoint p1 p2 ->
  buffers_disjoint (snd (allocate_buffers p0 p1 p2 s)).
Proof.
  intros H01 H02 H12. rewrite allocate_buffers_eq.
  destruct ((p0 =? NULL) || (p1 =? NULL) || (p2 =? NULL));
    unfold buffers_disjoint, fb_disjoint in *; simpl; lia.
Qed.

(** C5 (as the code has it): when one of the three requests is answered
    with [NULL], [allocate_buffers] returns [ESP_ERR_NO_MEM] after all
    three requests have been made; nothing is released: every block that
    was handed out is still held and its address is stored in its global
    pointer, and no byte of memory is written. *)
Theorem allocate_buffers_failure p0 p1 p2 s :
  p0 = NULL \/ p1 = NULL \/ p2 = NULL ->
  let res := allocate_buffers p0 p1 p2 s in
  fst res = ESP_ERR_NO_MEM /\
  held (snd res) = blocks_of [p2; p1; p0] ++ held s /\
  work_buf (snd res) = p0 /\ front_buf (snd res) = p1 /\
  back_buf (snd res) = p2 /\
  mem (snd res) = mem s /\
  trace (snd res) =
    EvLogE :: EvAlloc FB_ALIGN FB_SIZE p2 :: EvAlloc FB_ALIGN FB_SIZE p1
    :: EvAlloc FB_ALIGN FB_SIZE p0 :: trace s.
Proof.
  intros H res. subst res. rewrite (allocate_buffers_failed _ _ _ _ H).
  repeat split; reflexivity.
Qed.

Lemma allocate_buffers_failure_witness :
  let res := allocate_buffers psram0 psram1 NULL (initial_state zero_mem) in
  fst res = ESP_ERR_NO_MEM /\
  held (snd res) = [(psram1, FB_SIZE); (psram0, FB_SIZE)].
Proof.
  intros res.
  destruct (allocate_buffers_failure psram0 psram1 NULL
              (initial_state zero_mem)) as (Hret & Hheld & _).
  - right. right. reflexivity.
  - split; [exact Hret | exact Hheld].
Defined.

(** C5 as stated fails: with the third request refused, the error is
    returned while the two blocks obtained are still held and the global
    pointers have changed. *)
Lemma allocate_buffers_third_fails_leaks :
  let s := initial_state zero_mem in
  let res := allocate_buffers psram0 psram1 NULL s in
  fst res = ESP_ERR_NO_MEM /\
  held (snd res) = [(psram1, FB_SIZE); (psram0, FB_SIZE)] /\
  held (snd res) <> held s /\
  work_buf (snd res) <> work_buf s /\
  front_buf (snd res) <> front_buf s.
Proof.
  vm_compute. repeat split; discriminate.
Qed.

(** C6 (as the code has it): when the three requests, each for [FB_SIZE]
    bytes aligned on [FB_ALIGN = 64], are all answered with a block,
    [allocate_buffers] returns [ESP_OK], every byte of each of the three
    buffers is zero, and the roles are work = first block, front = second
    block, back = third block. *)
Theorem allocate_buffers_success p0 p1 p2 s :
  p0 <> NULL -> p1 <> NULL -> p2 <> NULL ->
  let res := allocate_buffers p0 p1 p2 s in
  fst res = ESP_OK /\
  (work_buf (snd res) = p0 /\ front_buf (snd res) = p1 /\
   back_buf (snd res) = p2) /\
  (forall j, 0 <= j < FB_SIZE ->
     mem (snd res) (work_buf (snd res) + j) = 0 /\
     mem (snd res) (front_buf (snd res) + j) = 0 /\
     mem (snd res) (back_buf (snd res) + j) = 0) /\
  held (snd res) = (p2, FB_SIZE) :: (p1, FB_SIZE) :: (p0, FB_SIZE) :: held s /\
  FB_ALIGN = 64 /\
  trace (snd res) =
    EvLogI :: EvMemset p2 0 FB_SIZE :: EvMemset p1 0 FB_SIZE
    :: EvMemset p0 0 FB_SIZE
    :: EvAlloc FB_ALIGN FB_SIZE p2 :: EvAlloc FB_ALIGN FB_SIZE p1
    :: EvAlloc FB_ALIGN FB_SIZE p0 :: trace s.
Proof.
  intros H0 H1 H2 res. subst res.
  rewrite (allocate_buffers_succeeded _ _ _ _ H0 H1 H2).
  cbn [fst snd]. split; [reflexivity | split; [| split; [| split]]].
  - repeat split; reflexivity.
  - intros j Hj.
    cbn -[FB_SIZE memset]. repeat split.
    + do 2 apply memset_zero_stays. apply memset_inside. lia.
    + apply memset_zero_stays. apply memset_inside. lia.
    + apply memset_inside. lia.
  - unfold after_allocs, blocks_of. cbn -[FB_SIZE Z.eqb].
    apply Z.eqb_neq in H0, H1, H2. rewrite H0, H1, H2. reflexivity.
  - split; reflexivity.
Qed.

Lemma allocate_buffers_success_witness :
  let res := allocate_buffers psram0 psram1 psram2
                              (initial_state white_tile_mem) in
  fst res = ESP_OK /\
  front_buf (snd res) = psram1 /\ back_buf (snd res) = psram2 /\
  mem (snd res) (front_buf (snd res) + 1036799) = 0.
Proof.
  intros res.
  destruct (allocate_buffers_success psram0 psram1 psram2
              (initial_state white_tile_mem))
    as (Hret & (_ & Hf & Hb) & Hzero & _);
    [by_evaluation | by_evaluation | by_evaluation |].
  split; [exact Hret | split; [exact Hf | split; [exact Hb |]]].
  apply (Hzero 1036799). by_evaluation.
Defined.

(** C6 as stated fails: the second block becomes the front buffer and the
    third the back buffer, not the other way round. *)
Lemma allocate_buffers_second_is_front :
  let res := allocate_buffers psram0 psram1 psram2 (initial_state zero_mem) in
  fst res = ESP_OK /\
  work_buf (snd res) = psram0 /\
  back_buf (snd res) = psram2 /\ back_buf (snd res) <> psram1 /\
  front_buf (snd res) = psram1 /\ front_buf (snd res) <> psram2.
Proof.
  vm_compute. repeat split; discriminate.
Qed.

(** ** The state invariant

    The statements above about finalize assume buffers that share no byte
    and no pending completion signal.  Both hold once [allocate_buffers]
    has succeeded with blocks the allocator keeps apart
    ([allocate_buffers_disjoint]), and the flush callback keeps them. *)

Lemma allocate_buffers_sem p0 p1 p2 s :
  s_copy_done_sem (snd (allocate_buffers p0 p1 p2 s)) = s_copy_done_sem s.
Proof.
  rewrite allocate_buffers_eq.
  destruct ((p0 =? NULL) || (p1 =? NULL) || (p2 =? NULL)); reflexivity.
Qed.

Lemma lvgl_flush_cb_sem is_last area color_map r s s' :
  lvgl_flush_cb is_last area color_map r s = Some s' ->
  s_copy_done_sem s = false -> s_copy_done_sem s' = false.
Proof.
  intros Hcb Hsem. destruct is_last.
  - apply lvgl_flush_cb_last_some in Hcb as (s2 & Hfin & ->).
    simpl. apply (finalize_frame_sem _ _ _ Hfin).
    rewrite flush_rows_sem. exact Hsem.
  - rewrite lvgl_flush_cb_not_last in Hcb. injection Hcb as <-.
    simpl. rewrite flush_rows_sem. exact Hsem.
Qed.

(** ** The code run on concrete inputs *)

Example scenario_A_runs :
  match lvgl_flush_cb true tile_A sram_render_buf dma_ok
                      (running_state white_tile_mem) with
  | Some s' =>
      front_buf s' = psram2 /\ back_buf s' = psram1 /\ work_buf s' = psram0 /\
      read16 (mem s') (front_buf s' + 2 * (10 * 720 + 10)) = 65535 /\
      read16 (mem s') (front_buf s' + 2 * (59 * 720 + 109)) = 65535 /\
      read16 (mem s') (front_buf s' + 2 * (59 * 720 + 110)) = 0 /\
      read16 (mem s') (front_buf s' + 2 * (9 * 720 + 10)) = 0 /\
      read16 (mem s') (back_buf s' + 2 * (10 * 720 + 10)) = 0 /\
      trace s' =
        EvFlushReady :: EvDrawBitmap 0 0 720 720 psram2 :: EvSemTake
        :: EvSemGiveFromISR :: EvAsyncMemcpy psram2 psram0 1036800 ESP_OK
        :: row_copies tile_A sram_render_buf psram0
  | None => False
  end.
Proof. vm_compute. repeat split. Qed.

Example stalled_engine_blocks :
  finalize_frame (mkDma ESP_OK false) (running_state zero_mem) = None.
Proof. reflexivity. Qed.

Example corner_tile_last_byte :
  let s' := flush_rows tile_corner sram_render_buf
                       (Z.to_nat (area_h tile_corner))
                       (running_state white_tile_mem) in
  mem s' (psram0 + FB_SIZE - 1) = 255 /\
  mem s' (psram0 + FB_SIZE) = 0 /\
  hd_error (memcpy_dests (trace s')) = Some (psram0 + FB_SIZE - 40, 40).
Proof. vm_compute. repeat split. Qed.

Example task_delay_values :
  map task_delay [0; 1; 5; 10; 11; 4294967295] = [1; 1; 5; 10; 10; 10].
Proof. reflexivity. Qed.

(** * Further properties of the driver *)

(** ** [gdma_copy_buffer] *)

(** X1: when the engine accepts the job and finishes it,
    [gdma_copy_buffer] returns after one give from the ISR and one take by
    the task, in that order; the destination holds the bytes of the source,
    no byte outside the destination changes, the CPU makes no [memcpy], the
    semaphore is empty again and the copy-in-progress flag is cleared. *)
Theorem gdma_copy_buffer_dma_path dst src len r s :
  dma_ret r = ESP_OK ->
  dma_completes r = true ->
  exists s',
    gdma_copy_buffer dst src len r s = Some s' /\
    trace s' = EvSemTake :: EvSemGiveFromISR
               :: EvAsyncMemcpy dst src len ESP_OK :: trace s /\
    memcpy_dests (trace s') = memcpy_dests (trace s) /\
    s_copy_done_sem s' = false /\
    s_copy_in_progress s' = false /\
    (forall j, 0 <= j < len -> mem s' (dst + j) = mem s (src + j)) /\
    (forall a, a < dst \/ dst + len <= a -> mem s' a = mem s a).
Proof.
  intros Hok Hc.
  assert (Hr : dma_responsive r) by (right; exact Hc).
  destruct (gdma_copy_buffer_returns dst src len r s Hr) as (s' & Hs' & Hm).
  exists s'. split; [exact Hs' |].
  apply gdma_copy_buffer_some in Hs' as (Hout & _ & _ & _ & _ & Hp).
  destruct Hout as [Hne _ _ _ | _ _ _ Ht Hsem | _ Hc' _ _ _ _];
    [contradiction | | congruence].
  split; [exact Ht | split; [rewrite Ht; reflexivity |]].
  split; [exact Hsem | split; [exact Hp | split]].
  - intros j Hj. rewrite Hm. apply memcpy_inside. exact Hj.
  - intros a Ha. rewrite Hm. apply memcpy_outside. exact Ha.
Qed.

Lemma gdma_copy_buffer_dma_path_witness :
  exists s',
    gdma_copy_buffer psram2 psram0 FB_SIZE dma_ok
                     (running_state white_tile_mem) = Some s' /\
    s_copy_done_sem s' = false /\
    mem s' (psram2 + 1036799) = white_tile_mem (psram0 + 1036799).
Proof.
  destruct (gdma_copy_buffer_dma_path psram2 psram0 FB_SIZE dma_ok
              (running_state white_tile_mem) eq_refl eq_refl)
    as (s' & Hs' & _ & _ & Hsem & _ & Hin & _).
  exists s'. split; [exact Hs' | split; [exact Hsem |]].
  apply Hin. by_evaluation.
Defined.

(** X2: [gdma_copy_buffer] blocks for ever exactly when the engine accepts
    the job, never signals its completion, and no signal is pending; the
    flush callback then never returns (and never acknowledges the flush)
    exactly when, in addition, the flush is the last of its frame. *)
Theorem gdma_copy_buffer_blocks_iff dst src len r s :
  (gdma_copy_buffer dst src len r s = None <->
   dma_ret r = ESP_OK /\ dma_completes r = false /\
   s_copy_done_sem s = false) /\
  (forall is_last area color_map,
     lvgl_flush_cb is_last area color_map r s = None <->
     is_last = true /\ dma_ret r = ESP_OK /\ dma_completes r = false /\
     s_copy_done_sem s = false).
Proof.
  assert (Hcopy : forall d sr n t,
            gdma_copy_buffer d sr n r t = None <->
            dma_ret r = ESP_OK /\ dma_completes r = false /\
            s_copy_done_sem t = false).
  { intros d sr n t. unfold gdma_copy_buffer, esp_async_memcpy.
    destruct (Z.eqb_spec (dma_ret r) ESP_OK) as [Hok | Hne].
    - destruct (dma_completes r) eqn:Hc; simpl.
      + split; [discriminate | intros (_ & H & _); discriminate].
      + unfold xSemaphoreTake. simpl.
        destruct (s_copy_done_sem t) eqn:Hs.
        * split; [discriminate | intros (_ & _ & H); discriminate].
        * split; [intros _; auto | reflexivity].
    - apply Z.eqb_neq in Hne as Hne'. rewrite Hne'. simpl.
      split; [discriminate | intros (H & _); contradiction]. }
  split; [apply Hcopy |].
  intros is_last area color_map. unfold lvgl_flush_cb, finalize_frame.
  destruct is_last.
  - set (s1 := flush_rows area color_map (Z.to_nat (area_h area)) s).
    assert (Hsem : s_copy_done_sem s1 = s_copy_done_sem s)
      by apply flush_rows_sem.
    destruct (gdma_copy_buffer (back_buf s1) (work_buf s1) FB_SIZE r s1)
      as [s2 |] eqn:E.
    + split; [discriminate |]. intros (_ & H).
      rewrite <- Hsem in H.
      apply (proj2 (Hcopy (back_buf s1) (work_buf s1) FB_SIZE s1)) in H.
      congruence.
    + apply Hcopy in E. rewrite Hsem in E. tauto.
  - split; [discriminate | intros (H & _); discriminate].
Qed.

(** X3: whenever [gdma_copy_buffer] returns, the buffer pointers and the
    held blocks are as before, the copy-in-progress flag is cleared and no
    byte outside the destination has changed; if no completion signal was
    pending at the call, the destination holds the bytes of the source and
    no signal is pending at the return. *)
Theorem gdma_copy_buffer_on_return dst src len r s s' :
  gdma_copy_buffer dst src len r s = Some s' ->
  (work_buf s' = work_buf s /\ front_buf s' = front_buf s /\
   back_buf s' = back_buf s /\ held s' = held s) /\
  s_copy_in_progress s' = false /\
  (forall a, a < dst \/ dst + len <= a -> mem s' a = mem s a) /\
  (s_copy_done_sem s = false ->
   s_copy_done_sem s' = false /\
   forall j, 0 <= j < len -> mem s' (dst + j) = mem s (src + j)).
Proof.
  intros H. apply gdma_copy_buffer_some in H as (Hc & Hw & Hf & Hb & Hh & Hp).
  split; [tauto | split; [exact Hp | split]].
  - intros a Ha. apply (copy_outcome_outside _ _ _ _ _ _ a Hc Ha).
  - intros Hs. split.
    + apply (copy_outcome_sem _ _ _ _ _ _ Hc Hs).
    + intros j Hj. apply (copy_outcome_inside _ _ _ _ _ _ j Hc); auto.
Qed.

Lemma gdma_copy_buffer_on_return_witness :
  exists s',
    gdma_copy_buffer psram2 psram0 FB_SIZE dma_busy
                     (running_state white_tile_mem) = Some s' /\
    front_buf s' = psram1 /\
    mem s' (psram1 + 5) = white_tile_mem (psram1 + 5).
Proof.
  destruct (gdma_copy_buffer_returns psram2 psram0 FB_SIZE dma_busy
              (running_state white_tile_mem)) as (s' & Hs' & _).
  - left. by_evaluation.
  - destruct (gdma_copy_buffer_on_return _ _ _ _ _ _ Hs')
      as ((_ & Hf & _) & _ & Hout & _).
    exists s'. split; [exact Hs' | split; [exact Hf |]].
    apply Hout. left. by_evaluation.
Defined.

(** ** [swap_buffers] *)

Lemma presented_app (t u : list event) :
  presented (t ++ u) = presented t ++ presented u.
Proof.
  induction t as [| e t IH]; [reflexivity |].
  destruct e; simpl; rewrite IH; reflexivity.
Qed.

Lemma presented_row_copies area color_map work :
  presented (row_copies area color_map work) = [].
Proof.
  unfold row_copies. induction (seq 0 (Z.to_nat (area_h area))) as [| y l IH].
  - reflexivity.
  - simpl. rewrite presented_app, IH. reflexivity.
Qed.

(** Two swaps in a row give back the role assignment: front, back and
    work are the buffers they were, memory is untouched, and the panel was
    handed the old back buffer first and the old front buffer second. *)
Lemma swap_buffers_twice (s : state) :
  let s' := swap_buffers (swap_buffers s) in
  front_buf s' = front_buf s /\ back_buf s' = back_buf s /\
  work_buf s' = work_buf s /\ mem s' = mem s /\
  presented (trace s') = front_buf s :: back_buf s :: presented (trace s).
Proof. simpl. repeat split; reflexivity. Qed.

(** ** The flush callback: what it writes and what it presents *)

Lemma copy_outcome_presented dst src len r s s' :
  copy_outcome dst src len r s s' ->
  presented (trace s') = presented (trace s).
Proof.
  intros [_ _ Ht _ | _ _ _ Ht _ | _ _ _ _ Ht _]; rewrite Ht; reflexivity.
Qed.

Lemma flush_rows_presented area color_map n s :
  presented (trace (flush_rows area color_map n s)) = presented (trace s).
Proof.
  induction n as [| n IH]; [reflexivity |].
  rewrite flush_rows_S. unfold flush_row. simpl. exact IH.
Qed.

(** What a last flush does, step by step. *)
Lemma lvgl_flush_cb_last_steps area color_map r s s' :
  lvgl_flush_cb true area color_map r s = Some s' ->
  let s1 := flush_rows area color_map (Z.to_nat (area_h area)) s in
  exists s2,
    copy_outcome (back_buf s) (work_buf s) FB_SIZE r s1 s2 /\
    work_buf s2 = work_buf s /\ front_buf s2 = front_buf s /\
    back_buf s2 = back_buf s /\ held s2 = held s /\
    s' = emit EvFlushReady (swap_buffers s2).
Proof.
  intros Hcb s1.
  apply lvgl_flush_cb_last_some in Hcb as (s3 & Hfin & ->).
  apply finalize_frame_some in Hfin as (s2 & Hcopy & ->).
  apply gdma_copy_buffer_some in Hcopy as (Hc & Hw & Hf & Hb & Hh & _).
  pose proof (flush_rows_globals area color_map (Z.to_nat (area_h area)) s)
    as (Hw1 & Hf1 & Hb1 & _ & _ & Hh1).
  fold s1 in Hc, Hw, Hf, Hb, Hh, Hw1, Hf1, Hb1, Hh1.
  rewrite Hw1, Hb1 in Hc.
  exists s2. split; [exact Hc | repeat split; congruence].
Qed.

(** X4: when the last flush of a frame returns (three buffers that share
    no byte, a tile inside the display, and either no completion signal
    pending or an engine that refuses or finishes its job), front and back
    have exchanged roles, the buffer now tagged front is a byte-for-byte
    copy of the work buffer, the buffer that was on display during the
    flush has not been written, and the panel has been handed the new
    front buffer once, before the flush is acknowledged. *)
Theorem lvgl_flush_cb_last_presents_work area color_map r s s' :
  area_in_bounds area ->
  buffers_disjoint s ->
  dma_responsive r \/ s_copy_done_sem s = false ->
  lvgl_flush_cb true area color_map r s = Some s' ->
  (front_buf s' = back_buf s /\ back_buf s' = front_buf s /\
   work_buf s' = work_buf s) /\
  (forall j, 0 <= j < FB_SIZE ->
     mem s' (front_buf s' + j) = mem s' (work_buf s' + j)) /\
  (forall j, 0 <= j < FB_SIZE ->
     mem s' (back_buf s' + j) = mem s (front_buf s + j)) /\
  presented (trace s') = front_buf s' :: presented (trace s) /\
  exists t, trace s' = EvFlushReady
                       :: EvDrawBitmap 0 0 DISP_WIDTH DISP_HEIGHT (front_buf s')
                       :: t.
Proof.
  intros Hin (Hwb & Hwf & Hbf) Htrust Hcb.
  destruct (lvgl_flush_cb_last_steps _ _ _ _ _ Hcb)
    as (s2 & Hc & Hw & Hf & Hb & _ & ->).
  set (s1 := flush_rows area color_map (Z.to_nat (area_h area)) s) in *.
  pose proof (area_h_in_bounds area Hin) as Hh.
  assert (Hn : Z.of_nat (Z.to_nat (area_h area)) <= area_h area)
    by (unfold area_in_bounds in Hin; lia).
  assert (Htrust1 : dma_responsive r \/ s_copy_done_sem s1 = false).
  { destruct Htrust as [H | H]; [left; exact H | right].
    unfold s1. rewrite flush_rows_sem. exact H. }
  unfold fb_disjoint in Hwb, Hwf, Hbf.
  simpl. rewrite Hw, Hf, Hb.
  split; [tauto | split; [| split; [| split]]].
  - intros j Hj.
    rewrite (copy_outcome_inside _ _ _ _ _ _ j Hc Htrust1 Hj).
    symmetry. apply (copy_outcome_outside _ _ _ _ _ _ _ Hc). lia.
  - intros j Hj.
    rewrite (copy_outcome_outside _ _ _ _ _ _ (front_buf s + j) Hc) by lia.
    apply (flush_rows_other_buffer area color_map _ s _ Hin Hn). lia.
  - rewrite (copy_outcome_presented _ _ _ _ _ _ Hc).
    unfold s1. rewrite flush_rows_presented. reflexivity.
  - eexists. reflexivity.
Qed.

Lemma lvgl_flush_cb_last_presents_work_witness :
  exists s',
    lvgl_flush_cb true tile_A sram_render_buf dma_ok
                  (running_state white_tile_mem) = Some s' /\
    front_buf s' = psram2 /\
    mem s' (front_buf s' + 14441) = mem s' (work_buf s' + 14441) /\
    mem s' (back_buf s' + 14441) = white_tile_mem (psram1 + 14441).
Proof.
  destruct (lvgl_flush_cb_returns true tile_A sram_render_buf dma_ok
              (running_state white_tile_mem)) as (s' & Hs').
  - left. right. reflexivity.
  - destruct (lvgl_flush_cb_last_presents_work tile_A sram_render_buf dma_ok
                (running_state white_tile_mem) s'
                tile_A_in_bounds (running_state_disjoint _)
                (or_intror eq_refl) Hs')
      as ((Hf & _) & Hcopy & Hold & _).
    exists s'. split; [exact Hs' | split; [exact Hf | split]].
    + apply Hcopy. by_evaluation.
    + apply (Hold 14441). by_evaluation.
Defined.

(** X5: a flush never writes a byte outside the work buffer and the buffer
    tagged back at the call (tile inside the display): in particular the
    colour map handed in by LVGL and the buffer on display are left as
    they are. *)
Theorem lvgl_flush_cb_writes_work_and_back_only
        is_last area color_map r s s' a :
  area_in_bounds area ->
  lvgl_flush_cb is_last area color_map r s = Some s' ->
  a < work_buf s \/ work_buf s + FB_SIZE <= a ->
  a < back_buf s \/ back_buf s + FB_SIZE <= a ->
  mem s' a = mem s a.
Proof.
  intros Hin Hcb Hw Hb.
  pose proof (area_h_in_bounds area Hin) as Hh.
  assert (Hn : Z.of_nat (Z.to_nat (area_h area)) <= area_h area)
    by (unfold area_in_bounds in Hin; lia).
  destruct is_last.
  - destruct (lvgl_flush_cb_last_steps _ _ _ _ _ Hcb)
      as (s2 & Hc & _ & _ & _ & _ & ->).
    simpl. rewrite (copy_outcome_outside _ _ _ _ _ _ a Hc Hb).
    apply (flush_rows_other_buffer area color_map _ s _ Hin Hn Hw).
  - rewrite lvgl_flush_cb_not_last in Hcb. injection Hcb as <-.
    simpl. apply (flush_rows_other_buffer area color_map _ s _ Hin Hn Hw).
Qed.

Lemma lvgl_flush_cb_writes_work_and_back_only_witness :
  exists s',
    lvgl_flush_cb true tile_A sram_render_buf dma_busy
                  (running_state white_tile_mem) = Some s' /\
    mem s' (sram_render_buf + 9999) = white_tile_mem (sram_render_buf + 9999).
Proof.
  destruct (lvgl_flush_cb_returns true tile_A sram_render_buf dma_busy
              (running_state white_tile_mem)) as (s' & Hs').
  - left. left. by_evaluation.
  - exists s'. split; [exact Hs' |].
    apply (lvgl_flush_cb_writes_work_and_back_only true tile_A sram_render_buf
             dma_busy (running_state white_tile_mem) s' _
             tile_A_in_bounds Hs'); right; by_evaluation.
Defined.

(** X6: a tile of zero width ([x2 = x1 - 1]) or zero height
    ([y2 = y1 - 1]) is flushed without any byte of memory changing; when it
    is not the last flush the callback writes nothing and acknowledges. *)
Theorem lvgl_flush_cb_empty_tile area color_map r s :
  x2 area = x1 area - 1 \/ y2 area = y1 area - 1 ->
  (forall a,
     mem (flush_rows area color_map (Z.to_nat (area_h area)) s) a = mem s a) /\
  exists s',
    lvgl_flush_cb false area color_map r s = Some s' /\
    (forall a, mem s' a = mem s a) /\
    exists t, trace s' = EvFlushReady :: t.
Proof.
  intros Hempty.
  assert (Hrows : forall a,
            mem (flush_rows area color_map (Z.to_nat (area_h area)) s) a
            = mem s a).
  { intros a. destruct Hempty as [Hx | Hy].
    - apply flush_rows_outside. intros y _.
      apply in_range_false. unfold row_len, area_w.
      replace (x2 area - x1 area + 1) with 0 by lia.
      change (wrap32 (wrap32 0 * 2)) with 0. lia.
    - unfold area_h. replace (y2 area - y1 area + 1) with 0 by lia.
      reflexivity. }
  split; [exact Hrows |].
  eexists. split; [apply lvgl_flush_cb_not_last |].
  split; [exact Hrows | eexists; reflexivity].
Qed.

Lemma lvgl_flush_cb_empty_tile_witness :
  mem (flush_rows (mkArea 10 10 9 59) sram_render_buf
                  (Z.to_nat (area_h (mkArea 10 10 9 59)))
                  (running_state white_tile_mem)) (psram0 + 14440)
  = white_tile_mem (psram0 + 14440).
Proof.
  destruct (lvgl_flush_cb_empty_tile (mkArea 10 10 9 59) sram_render_buf
              dma_ok (running_state white_tile_mem)) as (Hrows & _).
  - left. reflexivity.
  - apply Hrows.
Defined.

(** ** Runs of flushes *)

(** One flush: work is never reassigned, front and back are exchanged by a
    last flush and by no other, the held blocks stay. *)
Lemma lvgl_flush_cb_roles is_last area color_map r s s' :
  lvgl_flush_cb is_last area color_map r s = Some s' ->
  work_buf s' = work_buf s /\ held s' = held s /\
  front_buf s' = (if is_last then back_buf s else front_buf s) /\
  back_buf s' = (if is_last then front_buf s else back_buf s) /\
  presented (trace s') =
    (if is_last then [back_buf s] else []) ++ presented (trace s).
Proof.
  intros Hcb. destruct is_last.
  - destruct (lvgl_flush_cb_last_steps _ _ _ _ _ Hcb)
      as (s2 & Hc & Hw & Hf & Hb & Hh & ->).
    simpl. rewrite (copy_outcome_presented _ _ _ _ _ _ Hc).
    rewrite flush_rows_presented. repeat split; congruence.
  - rewrite lvgl_flush_cb_not_last in Hcb. injection Hcb as <-.
    pose proof (flush_rows_globals area color_map (Z.to_nat (area_h area)) s)
      as (Hw & Hf & Hb & _ & _ & Hh).
    simpl in *. rewrite flush_rows_presented. repeat split; congruence.
Qed.

Lemma run_flushes_returns cs s :
  (forall c, In c cs -> fc_last c = false \/ dma_responsive (fc_dma c)) ->
  exists s', run_flushes cs s = Some s'.
Proof.
  revert s. induction cs as [| c cs IH]; intros s Hall.
  - exists s. reflexivity.
  - simpl.
    destruct (lvgl_flush_cb_returns (fc_last c) (fc_area c) (fc_map c)
                (fc_dma c) s) as (s1 & ->).
    + destruct (Hall c (or_introl eq_refl)) as [H | H]; [right | left]; exact H.
    + apply IH. intros c' Hc'. apply Hall. right. exact Hc'.
Qed.

Lemma run_flushes_keeps cs s s' :
  run_flushes cs s = Some s' ->
  (work_buf s' = work_buf s /\ held s' = held s /\
   front_buf s' =
     (if Nat.even (frames_closed cs) then front_buf s else back_buf s) /\
   back_buf s' =
     (if Nat.even (frames_closed cs) then back_buf s else front_buf s) /\
   length (presented (trace s')) =
     (frames_closed cs + length (presented (trace s)))%nat) /\
  (buffers_disjoint s -> buffers_disjoint s') /\
  (s_copy_done_sem s = false -> s_copy_done_sem s' = false).
Proof.
  revert s. induction cs as [| c cs IH]; intros s Hrun.
  - injection Hrun as <-. simpl. tauto.
  - simpl in Hrun.
    destruct (lvgl_flush_cb (fc_last c) (fc_area c) (fc_map c) (fc_dma c) s)
      as [s1 |] eqn:Hcb; [| discriminate].
    destruct (IH s1 Hrun) as ((Hw & Hh & Hf & Hb & Hp) & Hdis & Hsem).
    destruct (lvgl_flush_cb_roles _ _ _ _ _ _ Hcb)
      as (Hw1 & Hh1 & Hf1 & Hb1 & Hp1).
    split; [| split].
    + unfold frames_closed in *. simpl.
      rewrite Hw, Hh, Hf, Hb, Hp, Hw1, Hh1, Hf1, Hb1, Hp1.
      destruct (fc_last c); simpl length.
      * rewrite Nat.even_succ, <- Nat.negb_even.
        destruct (Nat.even (length (filter fc_last cs))); simpl;
          repeat split; lia.
      * repeat split.
    + intros H. apply Hdis. apply (lvgl_flush_cb_disjoint _ _ _ _ _ _ Hcb H).
    + intros H. apply Hsem. apply (lvgl_flush_cb_sem _ _ _ _ _ _ Hcb H).
Qed.

(** X7: over any run of flushes, the work buffer is never reassigned, no
    block is allocated or freed, the panel is handed one buffer per closed
    frame, and front and back are as at the start after an even number of
    closed frames and exchanged after an odd number; buffers that share no
    byte still share none and the completion semaphore stays empty.  The
    run returns whenever every last flush meets an engine that refuses or
    finishes its job. *)
Theorem run_flushes_invariant cs s :
  buffers_disjoint s ->
  s_copy_done_sem s = false ->
  ((forall c, In c cs -> fc_last c = false \/ dma_responsive (fc_dma c)) ->
   exists s', run_flushes cs s = Some s') /\
  (forall s', run_flushes cs s = Some s' ->
     buffers_disjoint s' /\ s_copy_done_sem s' = false /\
     work_buf s' = work_buf s /\ held s' = held s /\
     front_buf s' =
       (if Nat.even (frames_closed cs) then front_buf s else back_buf s) /\
     back_buf s' =
       (if Nat.even (frames_closed cs) then back_buf s else front_buf s) /\
     length (presented (trace s')) =
       (frames_closed cs + length (presented (trace s)))%nat).
Proof.
  intros Hdis Hsem. split; [apply run_flushes_returns |].
  intros s' Hrun.
  destruct (run_flushes_keeps cs s s' Hrun) as (Hroles & Hd & Hs).
  split; [exact (Hd Hdis) | split; [exact (Hs Hsem) | exact Hroles]].
Qed.

Lemma run_flushes_invariant_witness :
  exists s',
    run_flushes [mkFlush false tile_A sram_render_buf dma_ok;
                 mkFlush true tile_corner sram_render_buf dma_busy;
                 mkFlush true tile_A sram_render_buf dma_ok;
                 mkFlush true tile_A sram_render_buf dma_ok]
                (running_state white_tile_mem) = Some s' /\
    work_buf s' = psram0 /\ front_buf s' = psram2 /\ back_buf s' = psram1.
Proof.
  destruct (run_flushes_invariant
              [mkFlush false tile_A sram_render_buf dma_ok;
               mkFlush true tile_corner sram_render_buf dma_busy;
               mkFlush true tile_A sram_render_buf dma_ok;
               mkFlush true tile_A sram_render_buf dma_ok]
              (running_state white_tile_mem)
              (running_state_disjoint _) eq_refl) as (Hret & Hinv).
  destruct Hret as (s' & Hs').
  - intros c [<- | [<- | [<- | [<- | []]]]];
      [left; reflexivity | right; left; by_evaluation
       | right; right; reflexivity | right; right; reflexivity].
  - destruct (Hinv s' Hs') as (_ & _ & Hw & _ & Hf & Hb & _).
    exists s'. split; [exact Hs' | split; [exact Hw | split]].
    + exact Hf.
    + exact Hb.
Defined.

(** ** Tiles of one frame *)

(** The bytes of the work buffer after a flush are those the row loop
    left. *)
Lemma lvgl_flush_cb_work_bytes is_last area color_map r s s' j :
  lvgl_flush_cb is_last area color_map r s = Some s' ->
  buffers_disjoint s ->
  0 <= j < FB_SIZE ->
  mem s' (work_buf s + j) =
  mem (flush_rows area color_map (Z.to_nat (area_h area)) s) (work_buf s + j).
Proof.
  intros Hcb (Hwb & _) Hj. unfold fb_disjoint in Hwb. destruct is_last.
  - destruct (lvgl_flush_cb_last_steps _ _ _ _ _ Hcb)
      as (s2 & Hc & _ & _ & _ & _ & ->).
    simpl. apply (copy_outcome_outside _ _ _ _ _ _ _ Hc). lia.
  - rewrite lvgl_flush_cb_not_last in Hcb. injection Hcb as <-. reflexivity.
Qed.

(** A byte of the payload is a byte outside the frame buffer the payload
    is kept apart from. *)
Lemma payload_byte_outside area color_map fb row j :
  area_in_bounds area ->
  payload_disjoint area color_map fb ->
  0 <= row < rect_height area ->
  0 <= j < rect_width area * 2 ->
  color_map + row * (rect_width area * 2) + j < fb \/
  fb + FB_SIZE <= color_map + row * (rect_width area * 2) + j.
Proof.
  intros Hin Hpay Hrow Hj. unfold payload_disjoint in Hpay.
  rewrite (area_w_in_bounds area Hin), (area_h_in_bounds area Hin) in Hpay.
  unfold rect_height, rect_width in *.
  unfold area_in_bounds in Hin.
  assert (0 <= row * (x2 area - x1 area + 1)) by nia.
  assert (row * (x2 area - x1 area + 1) + (x2 area - x1 area + 1)
          <= (x2 area - x1 area + 1) * (y2 area - y1 area + 1)) by nia.
  lia.
Qed.

(** X8: two flushes of one frame, the first not the last.  Afterwards the
    work buffer holds the second tile on its footprint, the first tile on
    the part of its footprint that the second does not cover, and what it
    held before everywhere else (tiles inside the display, payloads apart
    from the work buffer, buffers that share no byte). *)
Theorem two_tiles_compose tile1 map1 r1 tile2 map2 r2 last2 s s' :
  area_in_bounds tile1 ->
  area_in_bounds tile2 ->
  buffers_disjoint s ->
  payload_disjoint tile1 map1 (work_buf s) ->
  payload_disjoint tile2 map2 (work_buf s) ->
  run_flushes [mkFlush false tile1 map1 r1; mkFlush last2 tile2 map2 r2] s
  = Some s' ->
  work_buf s' = work_buf s /\
  (forall row j,
     0 <= row < rect_height tile2 -> 0 <= j < rect_width tile2 * 2 ->
     mem s' (work_buf s + ((y1 tile2 + row) * DISP_WIDTH + x1 tile2) * 2 + j)
     = mem s (map2 + row * (rect_width tile2 * 2) + j)) /\
  (forall row j,
     0 <= row < rect_height tile1 -> 0 <= j < rect_width tile1 * 2 ->
     in_tile tile2 (work_buf s)
       (work_buf s + ((y1 tile1 + row) * DISP_WIDTH + x1 tile1) * 2 + j)
     = false ->
     mem s' (work_buf s + ((y1 tile1 + row) * DISP_WIDTH + x1 tile1) * 2 + j)
     = mem s (map1 + row * (rect_width tile1 * 2) + j)) /\
  (forall j, 0 <= j < FB_SIZE ->
     in_tile tile1 (work_buf s) (work_buf s + j) = false ->
     in_tile tile2 (work_buf s) (work_buf s + j) = false ->
     mem s' (work_buf s + j) = mem s (work_buf s + j)).
Proof.
  intros Hin1 Hin2 Hdis Hpay1 Hpay2 Hrun.
  simpl in Hrun.
  set (s1 := emit EvFlushReady
               (flush_rows tile1 map1 (Z.to_nat (area_h tile1)) s)) in *.
  destruct (lvgl_flush_cb last2 tile2 map2 r2 s1) as [s2 |] eqn:Hcb;
    [| discriminate].
  injection Hrun as ->.
  assert (Hw1 : work_buf s1 = work_buf s) by apply flush_rows_work.
  assert (Hm1 : mem s1 = mem (flush_rows tile1 map1
                                (Z.to_nat (area_h tile1)) s)) by reflexivity.
  assert (Hdis1 : buffers_disjoint s1).
  { apply (flush_rows_disjoint tile1 map1 (Z.to_nat (area_h tile1)) s Hdis). }
  pose proof (area_h_in_bounds tile1 Hin1) as Hh1.
  pose proof (area_h_in_bounds tile2 Hin2) as Hh2.
  assert (Hn1 : Z.of_nat (Z.to_nat (area_h tile1)) <= area_h tile1)
    by (unfold area_in_bounds in Hin1; lia).
  assert (Hn2 : Z.of_nat (Z.to_nat (area_h tile2)) <= area_h tile2)
    by (unfold area_in_bounds in Hin2; lia).
  assert (Hbytes : forall j, 0 <= j < FB_SIZE ->
            mem s' (work_buf s + j) =
            mem (flush_rows tile2 map2 (Z.to_nat (area_h tile2)) s1)
                (work_buf s + j)).
  { intros j Hj. rewrite <- Hw1.
    apply (lvgl_flush_cb_work_bytes _ _ _ _ _ _ _ Hcb Hdis1 Hj). }
  split; [| split; [| split]].
  - destruct (lvgl_flush_cb_roles _ _ _ _ _ _ Hcb) as (Hw & _). congruence.
  - intros row j Hrow Hj.
    rewrite <- Z.add_assoc.
    rewrite Hbytes by (apply tile_offset_in_buffer; assumption).
    rewrite Z.add_assoc. rewrite <- Hw1.
    rewrite (flush_rows_tile tile2 map2 s1 row j Hin2); try assumption.
    + rewrite Hm1.
      apply (flush_rows_other_buffer tile1 map1 _ s _ Hin1 Hn1).
      apply (payload_byte_outside tile2 map2 _ row j Hin2 Hpay2 Hrow Hj).
    + rewrite Hw1. exact Hpay2.
  - intros row j Hrow Hj Hoff.
    rewrite <- Z.add_assoc in Hoff |- *.
    rewrite Hbytes by (apply tile_offset_in_buffer; assumption).
    rewrite (flush_rows_off_tile tile2 Hin2 map2 _ s1 _ Hn2)
      by (rewrite Hw1; exact Hoff).
    rewrite Hm1, Z.add_assoc.
    apply (flush_rows_tile tile1 map1 s row j Hin1 Hpay1 Hrow Hj).
  - intros j Hj Hoff1 Hoff2.
    rewrite Hbytes by exact Hj.
    rewrite (flush_rows_off_tile tile2 Hin2 map2 _ s1 _ Hn2)
      by (rewrite Hw1; exact Hoff2).
    rewrite Hm1.
    apply (flush_rows_off_tile tile1 Hin1 map1 _ s _ Hn1 Hoff1).
Qed.

Lemma two_tiles_compose_witness :
  exists s',
    run_flushes [mkFlush false tile_A sram_render_buf dma_ok;
                 mkFlush true (mkArea 50 50 59 69) (sram_render_buf + 9600)
                         dma_ok]
                (running_state white_tile_mem) = Some s' /\
    mem s' (psram0 + ((10 + 0) * DISP_WIDTH + 10) * 2 + 0)
    = white_tile_mem (sram_render_buf + 0 * (rect_width tile_A * 2) + 0).
Proof.
  destruct (run_flushes_returns
              [mkFlush false tile_A sram_render_buf dma_ok;
               mkFlush true (mkArea 50 50 59 69) (sram_render_buf + 9600)
                       dma_ok]
              (running_state white_tile_mem)) as (s' & Hs').
  - intros c [<- | [<- | []]]; [left | right; right]; reflexivity.
  - exists s'. split; [exact Hs' |].
    destruct (two_tiles_compose tile_A sram_render_buf dma_ok
                (mkArea 50 50 59 69) (sram_render_buf + 9600) dma_ok true
                (running_state white_tile_mem) s'
                tile_A_in_bounds) as (_ & _ & Hfirst & _);
      [by_evaluation | apply running_state_disjoint
       | apply render_buf_disjoint | right; by_evaluation | exact Hs' |].
    apply (Hfirst 0 0); by_evaluation.
Defined.

(** ** Start-up *)

(** Start-up that runs to the end: every answer was a success, and the
    system is the one described. *)
Lemma app_main_running e y y' :
  app_main e y = Running y' ->
  (env_fb0 e <> NULL /\ env_fb1 e <> NULL /\ env_fb2 e <> NULL /\
   env_sem_ok e = true /\ env_gdma_ret e = ESP_OK /\
   env_panel_new e = ESP_OK /\ env_panel_reset e = ESP_OK /\
   env_panel_init e = ESP_OK) /\
  y' = booted e y.
Proof.
  unfold app_main, booted. cbv zeta. cbn [drv set_drv].
  rewrite allocate_buffers_eq.
  destruct (Z.eqb_spec (env_fb0 e) NULL) as [H0 | H0];
    [cbn; discriminate |].
  destruct (Z.eqb_spec (env_fb1 e) NULL) as [H1 | H1];
    [cbn; discriminate |].
  destruct (Z.eqb_spec (env_fb2 e) NULL) as [H2 | H2];
    [cbn; discriminate |].
  cbn [orb negb Z.eqb ESP_OK].
  unfold gdma_copy_init.
  destruct (env_sem_ok e); [| cbn; discriminate].
  cbn [negb fst snd].
  destruct (Z.eqb_spec (env_gdma_ret e) ESP_OK) as [Hg | Hg];
    [| cbn; discriminate].
  unfold lcd_panel_init.
  destruct (Z.eqb_spec (env_panel_new e) ESP_OK) as [Hp1 | Hp1];
    [| cbn [negb]; destruct (Z.eqb_spec (env_panel_new e) ESP_OK);
       [contradiction | cbn; discriminate]].
  destruct (Z.eqb_spec (env_panel_reset e) ESP_OK) as [Hp2 | Hp2];
    [| cbn [negb]; destruct (Z.eqb_spec (env_panel_reset e) ESP_OK);
       [contradiction | cbn; discriminate]].
  destruct (Z.eqb_spec (env_panel_init e) ESP_OK) as [Hp3 | Hp3];
    [| cbn [negb]; destruct (Z.eqb_spec (env_panel_init e) ESP_OK);
       [contradiction | cbn; discriminate]].
  cbn [negb Z.eqb ESP_OK].
  intros [= <-]. split; [tauto |].
  rewrite Hg, Hp1, Hp2, Hp3. reflexivity.
Qed.

Lemma app_main_booted e y :
  env_fb0 e <> NULL -> env_fb1 e <> NULL -> env_fb2 e <> NULL ->
  env_sem_ok e = true -> env_gdma_ret e = ESP_OK ->
  env_panel_new e = ESP_OK -> env_panel_reset e = ESP_OK ->
  env_panel_init e = ESP_OK ->
  app_main e y = Running (booted e y).
Proof.
  intros H0 H1 H2 Hs Hg Hp1 Hp2 Hp3.
  unfold app_main, booted. cbv zeta. cbn [drv set_drv].
  rewrite (allocate_buffers_succeeded _ _ _ _ H0 H1 H2).
  unfold gdma_copy_init, lcd_panel_init.
  rewrite Hs, Hg, Hp1, Hp2, Hp3. reflexivity.
Qed.

(** X9: [app_main] reaches the end (LVGL task started) exactly when the
    three frame buffers were obtained, the semaphore was created, the GDMA
    driver was installed and the three panel steps returned [ESP_OK]; the
    answer to the render buffer request plays no part, it is never
    tested. *)
Theorem app_main_running_iff e y :
  (exists y', app_main e y = Running y') <->
  (env_fb0 e <> NULL /\ env_fb1 e <> NULL /\ env_fb2 e <> NULL /\
   env_sem_ok e = true /\ env_gdma_ret e = ESP_OK /\
   env_panel_new e = ESP_OK /\ env_panel_reset e = ESP_OK /\
   env_panel_init e = ESP_OK).
Proof.
  split.
  - intros (y' & H). apply app_main_running in H as (H & _). exact H.
  - intros (H0 & H1 & H2 & Hs & Hg & Hp1 & Hp2 & Hp3).
    exists (booted e y). apply app_main_booted; assumption.
Qed.

(** What each start-up step leaves alone. *)
Lemma allocate_buffers_keeps p0 p1 p2 s :
  let res := allocate_buffers p0 p1 p2 s in
  held (snd res) = blocks_of [p2; p1; p0] ++ held s /\
  presented (trace (snd res)) = presented (trace s) /\
  (fst res = ESP_OK /\ p0 <> NULL /\ p1 <> NULL /\ p2 <> NULL \/
   fst res = ESP_ERR_NO_MEM /\ mem (snd res) = mem s).
Proof.
  cbv zeta. rewrite allocate_buffers_eq.
  destruct (Z.eqb_spec p0 NULL) as [H0 | H0];
    [cbn [orb fst snd]; repeat split; right; split; reflexivity |].
  destruct (Z.eqb_spec p1 NULL) as [H1 | H1];
    [cbn [orb fst snd]; repeat split; right; split; reflexivity |].
  destruct (Z.eqb_spec p2 NULL) as [H2 | H2];
    [cbn [orb fst snd]; repeat split; right; split; reflexivity |].
  cbn [orb fst snd]. repeat split. left. tauto.
Qed.

Lemma gdma_copy_init_keeps sem_ok handle ret y :
  let res := gdma_copy_init sem_ok handle ret y in
  held (drv (snd res)) = held (drv y) /\
  presented (trace (drv (snd res))) = presented (trace (drv y)) /\
  filter rendering_call (calls (snd res)) = filter rendering_call (calls y).
Proof.
  unfold gdma_copy_init. destruct sem_ok; repeat split.
Qed.

Lemma lcd_panel_init_keeps handle r_new r_reset r_init y :
  let res := lcd_panel_init handle r_new r_reset r_init y in
  held (drv (snd res)) = held (drv y) /\
  presented (trace (drv (snd res))) = presented (trace (drv y)) /\
  filter rendering_call (calls (snd res)) = filter rendering_call (calls y).
Proof.
  unfold lcd_panel_init.
  destruct (r_new =? ESP_OK); [| repeat split].
  destruct (r_reset =? ESP_OK); [| repeat split].
  destruct (r_init =? ESP_OK); repeat split.
Qed.

(** X10: a start-up that aborts has presented no frame buffer to the
    panel and has made no call that sets up rendering (LVGL, render
    buffer, demo UI, task); the frame buffers it obtained are still held;
    and when it is a frame buffer that could not be obtained, it has made
    no call at all to the semaphore, the GDMA driver or the panel, and has
    written no byte. *)
Theorem app_main_abort_stops e y y' :
  app_main e y = Aborted y' ->
  presented (trace (drv y')) = presented (trace (drv y)) /\
  filter rendering_call (calls y') = filter rendering_call (calls y) /\
  held (drv y') =
    blocks_of [env_fb2 e; env_fb1 e; env_fb0 e] ++ held (drv y) /\
  (env_fb0 e = NULL \/ env_fb1 e = NULL \/ env_fb2 e = NULL ->
   calls y' = calls y /\ mem (drv y') = mem (drv y)).
Proof.
  unfold app_main. cbv zeta.
  set (y0 := set_drv (emit EvLogI (emit EvLogI (emit EvLogI (drv y)))) y).
  pose proof (allocate_buffers_keeps (env_fb0 e) (env_fb1 e) (env_fb2 e)
                (drv y0)) as Ha.
  destruct (allocate_buffers (env_fb0 e) (env_fb1 e) (env_fb2 e) (drv y0))
    as [ret1 d1].
  cbv zeta in Ha. cbn [fst snd] in Ha.
  destruct Ha as (Hheld & Hpres & Hret).
  change (held (drv y0)) with (held (drv y)) in Hheld.
  change (presented (trace (drv y0))) with (presented (trace (drv y)))
    in Hpres.
  destruct Hret as [(-> & H0 & H1 & H2) | (-> & Hmem)].
  2: { cbn [negb Z.eqb ESP_OK ESP_ERR_NO_MEM]. intros [= <-].
       cbn [drv set_drv calls]. repeat split; assumption. }
  cbn [negb Z.eqb ESP_OK].
  set (y1 := set_drv d1 y0).
  pose proof (gdma_copy_init_keeps (env_sem_ok e) (env_mcp e)
                (env_gdma_ret e) y1) as Hg.
  destruct (gdma_copy_init (env_sem_ok e) (env_mcp e) (env_gdma_ret e) y1)
    as [ret2 y2].
  cbv zeta in Hg. cbn [fst snd] in Hg.
  destruct Hg as (Hheld2 & Hpres2 & Hcalls2).
  change (drv y1) with d1 in Hheld2, Hpres2.
  change (calls y1) with (calls y) in Hcalls2.
  destruct (negb (ret2 =? ESP_OK)).
  { intros [= <-]. repeat split; try congruence; exfalso; tauto. }
  pose proof (lcd_panel_init_keeps (env_panel e) (env_panel_new e)
                (env_panel_reset e) (env_panel_init e) y2) as Hp.
  destruct (lcd_panel_init (env_panel e) (env_panel_new e)
              (env_panel_reset e) (env_panel_init e) y2) as [ret3 y3].
  cbv zeta in Hp. cbn [fst snd] in Hp.
  destruct Hp as (Hheld3 & Hpres3 & Hcalls3).
  destruct (negb (ret3 =? ESP_OK)); [| discriminate].
  intros [= <-]. repeat split; try congruence; exfalso; tauto.
Qed.

Lemma app_main_abort_stops_witness :
  exists y',
    app_main no_third_buffer_env (initial_system zero_mem) = Aborted y' /\
    calls y' = [] /\
    held (drv y') = [(psram1, FB_SIZE); (psram0, FB_SIZE)].
Proof.
  exists (match app_main no_third_buffer_env (initial_system zero_mem) with
          | Running y' | Aborted y' => y'
          end).
  assert (H : app_main no_third_buffer_env (initial_system zero_mem)
              = Aborted
                  (match app_main no_third_buffer_env
                                  (initial_system zero_mem) with
                   | Running y' | Aborted y' => y'
                   end)) by reflexivity.
  destruct (app_main_abort_stops _ _ _ H) as (_ & _ & Hheld & Hnone).
  split; [exact H | split].
  - apply Hnone. right. right. reflexivity.
  - exact Hheld.
Defined.

Lemma booted_buffers e y :
  work_buf (drv (booted e y)) = env_fb0 e /\
  front_buf (drv (booted e y)) = env_fb1 e /\
  back_buf (drv (booted e y)) = env_fb2 e /\
  s_copy_done_sem (drv (booted e y)) = false.
Proof. repeat split; reflexivity. Qed.

Lemma booted_zero e y j :
  0 <= j < FB_SIZE ->
  mem (drv (booted e y)) (env_fb0 e + j) = 0 /\
  mem (drv (booted e y)) (env_fb1 e + j) = 0 /\
  mem (drv (booted e y)) (env_fb2 e + j) = 0.
Proof.
  intros Hj. unfold booted. cbn -[FB_SIZE memset]. repeat split.
  - do 2 apply memset_zero_stays. apply memset_inside. lia.
  - apply memset_zero_stays. apply memset_inside. lia.
  - apply memset_inside. lia.
Qed.

(** X11: once [app_main] has run to the end, with frame buffer blocks that
    the allocator keeps apart: work, front and back are the first, second
    and third block; the three buffers share no byte and every byte of
    them is zero; the completion semaphore is empty; and the one buffer
    handed to the panel is the front buffer, so the first frame on display
    is black. *)
Theorem app_main_running_state e y y' :
  fb_disjoint (env_fb0 e) (env_fb1 e) ->
  fb_disjoint (env_fb0 e) (env_fb2 e) ->
  fb_disjoint (env_fb1 e) (env_fb2 e) ->
  app_main e y = Running y' ->
  (work_buf (drv y') = env_fb0 e /\ front_buf (drv y') = env_fb1 e /\
   back_buf (drv y') = env_fb2 e) /\
  buffers_disjoint (drv y') /\
  s_copy_done_sem (drv y') = false /\
  (forall j, 0 <= j < FB_SIZE ->
     mem (drv y') (work_buf (drv y') + j) = 0 /\
     mem (drv y') (front_buf (drv y') + j) = 0 /\
     mem (drv y') (back_buf (drv y') + j) = 0) /\
  presented (trace (drv y')) =
    front_buf (drv y') :: presented (trace (drv y)) /\
  render_buf y' = env_render_buf e.
Proof.
  intros H01 H02 H12 Hrun.
  apply app_main_running in Hrun as (_ & ->).
  destruct (booted_buffers e y) as (Hw & Hf & Hb & Hs).
  rewrite Hw, Hf, Hb.
  split; [tauto | split; [| split; [exact Hs | split; [| split]]]].
  - unfold buffers_disjoint. rewrite Hw, Hf, Hb.
    unfold fb_disjoint in *. lia.
  - intros j Hj. apply booted_zero. exact Hj.
  - reflexivity.
  - reflexivity.
Qed.

Lemma app_main_running_state_witness :
  exists y',
    app_main good_env (initial_system white_tile_mem) = Running y' /\
    front_buf (drv y') = psram1 /\
    mem (drv y') (front_buf (drv y') + 1036799) = 0.
Proof.
  exists (booted good_env (initial_system white_tile_mem)).
  assert (H : app_main good_env (initial_system white_tile_mem)
              = Running (booted good_env (initial_system white_tile_mem))).
  { apply app_main_booted; by_evaluation. }
  assert (D01 : fb_disjoint psram0 psram1) by (left; by_evaluation).
  assert (D02 : fb_disjoint psram0 psram2) by (left; by_evaluation).
  assert (D12 : fb_disjoint psram1 psram2) by (left; by_evaluation).
  destruct (app_main_running_state good_env (initial_system white_tile_mem)
              _ D01 D02 D12 H) as ((_ & Hf & _) & _ & _ & Hzero & _).
  split; [exact H | split; [exact Hf |]].
  apply (Hzero 1036799). by_evaluation.
Defined.

(** X12: from start-up on, through any run of flushes that returns, the
    work buffer is the first block obtained, front and back are the second
    and third block (in this order after an even number of closed frames,
    exchanged after an odd number), the three share no byte, no frame
    buffer block is freed or added, and no completion signal is left
    pending. *)
Theorem boot_then_flushes e y y' cs s' :
  fb_disjoint (env_fb0 e) (env_fb1 e) ->
  fb_disjoint (env_fb0 e) (env_fb2 e) ->
  fb_disjoint (env_fb1 e) (env_fb2 e) ->
  app_main e y = Running y' ->
  run_flushes cs (drv y') = Some s' ->
  work_buf s' = env_fb0 e /\
  front_buf s' =
    (if Nat.even (frames_closed cs) then env_fb1 e else env_fb2 e) /\
  back_buf s' =
    (if Nat.even (frames_closed cs) then env_fb2 e else env_fb1 e) /\
  buffers_disjoint s' /\
  s_copy_done_sem s' = false /\
  held s' = (env_fb2 e, FB_SIZE) :: (env_fb1 e, FB_SIZE)
            :: (env_fb0 e, FB_SIZE) :: held (drv y).
Proof.
  intros H01 H02 H12 Hboot Hrun.
  apply app_main_running in Hboot as ((H0 & H1 & H2 & _) & ->).
  destruct (run_flushes_keeps cs _ s' Hrun)
    as ((Hw & Hh & Hf & Hb & _) & Hdis & Hsem).
  destruct (booted_buffers e y) as (Hw0 & Hf0 & Hb0 & Hs0).
  rewrite Hw0 in Hw. rewrite Hf0, Hb0 in Hf, Hb.
  split; [exact Hw | split; [exact Hf | split; [exact Hb | split]]].
  - apply Hdis. unfold buffers_disjoint. rewrite Hw0, Hf0, Hb0.
    unfold fb_disjoint in *. lia.
  - split; [apply Hsem; exact Hs0 |].
    rewrite Hh. unfold booted, after_allocs, blocks_of.
    cbn -[FB_SIZE Z.eqb].
    apply Z.eqb_neq in H0, H1, H2. rewrite H0, H1, H2. reflexivity.
Qed.

Lemma boot_then_flushes_witness :
  exists y' s',
    app_main good_env (initial_system white_tile_mem) = Running y' /\
    run_flushes [mkFlush false tile_A sram_render_buf dma_ok;
                 mkFlush true tile_corner sram_render_buf dma_busy]
                (drv y') = Some s' /\
    work_buf s' = psram0 /\ front_buf s' = psram2 /\ back_buf s' = psram1.
Proof.
  exists (booted good_env (initial_system white_tile_mem)).
  assert (H : app_main good_env (initial_system white_tile_mem)
              = Running (booted good_env (initial_system white_tile_mem))).
  { apply app_main_booted; by_evaluation. }
  destruct (run_flushes_returns
              [mkFlush false tile_A sram_render_buf dma_ok;
               mkFlush true tile_corner sram_render_buf dma_busy]
              (drv (booted good_env (initial_system white_tile_mem))))
    as (s' & Hs').
  - intros c [<- | [<- | []]]; [left; reflexivity | right; left; by_evaluation].
  - exists s'.
    assert (D01 : fb_disjoint psram0 psram1) by (left; by_evaluation).
    assert (D02 : fb_disjoint psram0 psram2) by (left; by_evaluation).
    assert (D12 : fb_disjoint psram1 psram2) by (left; by_evaluation).
    destruct (boot_then_flushes good_env (initial_system white_tile_mem)
                _ _ s' D01 D02 D12 H Hs') as (Hw & Hf & Hb & _).
    split; [exact H | split; [exact Hs' | split; [exact Hw | split]]].
    + exact Hf.
    + exact Hb.
Defined.

(** ** The start-up steps one by one *)

(** X13: [gdma_copy_init] returns [ESP_OK] exactly when the semaphore was
    created and the driver installation returned [ESP_OK].  Without a
    semaphore it returns [ESP_ERR_NO_MEM] and does not ask for the driver;
    with one it returns what the installation (backlog 4) returned, and
    the semaphore starts empty whatever its state was.  The buffers and
    memory are not touched. *)
Theorem gdma_copy_init_result sem_ok handle ret y :
  let res := gdma_copy_init sem_ok handle ret y in
  (fst res = ESP_OK <-> sem_ok = true /\ ret = ESP_OK) /\
  (sem_ok = false ->
   fst res = ESP_ERR_NO_MEM /\
   calls (snd res) = SysSemCreate false :: calls y /\
   s_mcp_handle (snd res) = s_mcp_handle y) /\
  (sem_ok = true ->
   fst res = ret /\
   calls (snd res) = SysGdmaInstall 4 ret :: SysSemCreate true :: calls y /\
   sem_created (snd res) = true /\
   s_copy_done_sem (drv (snd res)) = false) /\
  (work_buf (drv (snd res)) = work_buf (drv y) /\
   front_buf (drv (snd res)) = front_buf (drv y) /\
   back_buf (drv (snd res)) = back_buf (drv y) /\
   mem (drv (snd res)) = mem (drv y) /\
   trace (drv (snd res)) = trace (drv y)).
Proof.
  unfold gdma_copy_init. destruct sem_ok; cbn [negb fst snd].
  - split; [tauto | split; [discriminate | split]]; repeat split.
  - split; [| split; [| split; [discriminate |]]]; repeat split;
      try discriminate.
    intros (H & _). discriminate.
Qed.

(** X14: [lcd_panel_init] returns [ESP_OK] exactly when creating,
    resetting and initialising the panel all returned [ESP_OK]; otherwise
    it returns the code of the first step that failed and makes none of
    the later calls.  It never hands a frame buffer to the panel. *)
Theorem lcd_panel_init_fail_fast handle r_new r_reset r_init y :
  let res := lcd_panel_init handle r_new r_reset r_init y in
  let new := SysPanelNew DISP_WIDTH DISP_HEIGHT 16 0 r_new in
  (fst res = ESP_OK <->
   r_new = ESP_OK /\ r_reset = ESP_OK /\ r_init = ESP_OK) /\
  (r_new <> ESP_OK ->
   fst res = r_new /\ calls (snd res) = new :: calls y /\
   s_panel_handle (snd res) = s_panel_handle y) /\
  (r_new = ESP_OK -> r_reset <> ESP_OK ->
   fst res = r_reset /\
   calls (snd res) = SysPanelReset r_reset :: new :: calls y) /\
  (r_new = ESP_OK -> r_reset = ESP_OK ->
   fst res = r_init /\
   calls (snd res) =
     SysPanelInit r_init :: SysPanelReset r_reset :: new :: calls y /\
   s_panel_handle (snd res) = handle) /\
  presented (trace (drv (snd res))) = presented (trace (drv y)).
Proof.
  unfold lcd_panel_init.
  destruct (Z.eqb_spec r_new ESP_OK) as [Hn | Hn];
    [destruct (Z.eqb_spec r_reset ESP_OK) as [Hr | Hr];
     [destruct (Z.eqb_spec r_init ESP_OK) as [Hi | Hi] |] |];
    cbn [negb fst snd];
    (split; [| split; [| split; [| split]]]);
    try (intros; contradiction); try tauto;
    try (intros; repeat split; reflexivity);
    try reflexivity;
    try (split; [congruence | tauto]).
Qed.

(** X15: [lvgl_display_init] registers a 720x720 display, neither in
    direct mode nor in full refresh, with one draw buffer: the block it has
    just requested, whatever was answered ([NULL] included), of
    [DISP_WIDTH * BUF_LINES] pixels in as many times [LV_COLOR_SIZE] bytes.
    So the payload of a tile inside the display of at most that many pixels
    lies in the block, apart from every frame buffer the block is apart
    from. *)
Theorem lvgl_display_init_render_buf buf y :
  let y' := lvgl_display_init buf y in
  let size_px := DISP_WIDTH * BUF_LINES in
  render_buf y' = buf /\
  calls y' =
    SysDrvRegister DISP_WIDTH DISP_HEIGHT 0 0
    :: SysDrawBufInit buf NULL size_px
    :: SysMalloc (size_px * LV_COLOR_SIZE) buf
    :: SysLvInit :: calls y /\
  drv y' = drv y /\
  (forall area fb,
     area_in_bounds area ->
     rect_width area * rect_height area <= size_px ->
     buf + size_px * LV_COLOR_SIZE <= fb \/ fb + FB_SIZE <= buf ->
     payload_disjoint area (render_buf y') fb).
Proof.
  cbv zeta. split; [reflexivity | split; [reflexivity | split]];
    [reflexivity |].
  intros area fb Hin Hfit Hapart.
  unfold payload_disjoint.
  rewrite (area_w_in_bounds area Hin), (area_h_in_bounds area Hin).
  unfold rect_width, rect_height, LV_COLOR_SIZE in *.
  cbn [render_buf lvgl_display_init sys_emit]. lia.
Qed.

(** ** The task loop *)

Lemma wrap32_elapsed (t0 d : Z) :
  0 <= d < 2 ^ 32 -> wrap32 (wrap32 (t0 + d) - t0) = d.
Proof.
  intros Hd. unfold wrap32.
  rewrite Zminus_mod_idemp_l.
  replace (t0 + d - t0) with d by lia.
  apply Z.mod_small. exact Hd.
Qed.

(** X16: the five-second test of the task is right across an overflow of
    the 32-bit tick counter: if [d] ticks (less than 2^32) have passed
    since [last_fps_tick], then the frame counter is reset and
    [last_fps_tick] set to the current tick exactly when [d] is at least
    [pdMS_TO_TICKS(5000)]; otherwise the frame counter goes up by one
    (modulo 2^32) and [last_fps_tick] stays. *)
Theorem lvgl_task_iter_fps_window
        (pdMS_TO_TICKS : Z -> Z) (ttn now d : Z) (l : task_locals)
        (s : state) :
  0 <= d < 2 ^ 32 ->
  now = wrap32 (last_fps_tick l + d) ->
  let res := lvgl_task_iter pdMS_TO_TICKS ttn now l s in
  (pdMS_TO_TICKS 5000 <= d ->
   fst res = mkLocals 0 now /\
   trace (snd res) = EvTaskDelay (pdMS_TO_TICKS (task_delay ttn)) :: EvLogI
                     :: EvTimerHandler ttn :: trace s) /\
  (d < pdMS_TO_TICKS 5000 ->
   fst res = mkLocals (wrap32 (frame_count l + 1)) (last_fps_tick l) /\
   trace (snd res) = EvTaskDelay (pdMS_TO_TICKS (task_delay ttn))
                     :: EvTimerHandler ttn :: trace s).
Proof.
  intros Hd -> res. subst res. unfold lvgl_task_iter.
  rewrite (wrap32_elapsed _ _ Hd).
  destruct (d >=? pdMS_TO_TICKS 5000) eqn:E.
  - split; [intros _; split; reflexivity |].
    intros Hlt. rewrite Z.geb_leb in E. apply Z.leb_le in E. lia.
  - split; [| intros _; split; reflexivity].
    intros Hge. rewrite Z.geb_leb in E. apply Z.leb_gt in E. lia.
Qed.

Lemma lvgl_task_iter_fps_window_witness :
  fst (lvgl_task_iter (fun ms => ms) 3 (wrap32 (4294967000 + 5000))
                      (mkLocals 41 4294967000) (running_state zero_mem))
  = mkLocals 0 4704.
Proof.
  destruct (lvgl_task_iter_fps_window (fun ms => ms) 3
              (wrap32 (4294967000 + 5000)) 5000 (mkLocals 41 4294967000)
              (running_state zero_mem)) as (Hlog & _).
  - by_evaluation.
  - reflexivity.
  - apply Hlog. by_evaluation.
Defined.

Lemma task_delays_app (t u : list event) :
  task_delays (t ++ u) = task_delays t ++ task_delays u.
Proof.
  induction t as [| e t IH]; [reflexivity |].
  destruct e; simpl; rewrite IH; reflexivity.
Qed.

Lemma flush_rows_task_delays area color_map n s :
  task_delays (trace (flush_rows area color_map n s)) = task_delays (trace s).
Proof.
  induction n as [| n IH]; [reflexivity |].
  rewrite flush_rows_S. unfold flush_row. simpl. exact IH.
Qed.

Lemma lvgl_flush_cb_task_delays is_last area color_map r s s' :
  lvgl_flush_cb is_last area color_map r s = Some s' ->
  task_delays (trace s') = task_delays (trace s).
Proof.
  intros Hcb. destruct is_last.
  - destruct (lvgl_flush_cb_last_steps _ _ _ _ _ Hcb)
      as (s2 & Hc & _ & _ & _ & _ & ->).
    simpl. rewrite <- (flush_rows_task_delays area color_map
                         (Z.to_nat (area_h area)) s).
    destruct Hc as [_ _ Ht _ | _ _ _ Ht _ | _ _ _ _ Ht _]; rewrite Ht;
      reflexivity.
  - rewrite lvgl_flush_cb_not_last in Hcb. injection Hcb as <-.
    simpl. apply flush_rows_task_delays.
Qed.

Lemma run_flushes_task_delays cs s s' :
  run_flushes cs s = Some s' ->
  task_delays (trace s') = task_delays (trace s).
Proof.
  revert s. induction cs as [| c cs IH]; intros s Hrun.
  - injection Hrun as <-. reflexivity.
  - simpl in Hrun.
    destruct (lvgl_flush_cb (fc_last c) (fc_area c) (fc_map c) (fc_dma c) s)
      as [s1 |] eqn:Hcb; [| discriminate].
    rewrite (IH s1 Hrun). apply (lvgl_flush_cb_task_delays _ _ _ _ _ _ Hcb).
Qed.

(** The bookkeeping of one turn touches the trace only. *)
Lemma lvgl_task_iter_keeps pdMS_TO_TICKS ttn now l s :
  let s' := snd (lvgl_task_iter pdMS_TO_TICKS ttn now l s) in
  work_buf s' = work_buf s /\ front_buf s' = front_buf s /\
  back_buf s' = back_buf s /\ s_copy_done_sem s' = s_copy_done_sem s /\
  held s' = held s /\ mem s' = mem s /\
  task_delays (trace s') =
    pdMS_TO_TICKS (task_delay ttn) :: task_delays (trace s).
Proof.
  unfold lvgl_task_iter.
  destruct (wrap32 (now - last_fps_tick l) >=? pdMS_TO_TICKS 5000);
    repeat split.
Qed.

(** X17: however many turns the task loop makes, with whatever flushes in
    each, it calls [vTaskDelay] once per turn, in turn order, each time for
    the suggested delay clamped to 1..10 ms; the work buffer is never
    reassigned, no block is allocated or freed, buffers that share no byte
    still share none and an empty completion semaphore is still empty. *)
Theorem lvgl_task_run_paced pdMS_TO_TICKS turns l s l' s' :
  lvgl_task_run pdMS_TO_TICKS turns l s = Some (l', s') ->
  task_delays (trace s') =
    rev (map (fun t => pdMS_TO_TICKS (Z.min (Z.max (turn_ttn t) 1) 10)) turns)
    ++ task_delays (trace s) /\
  work_buf s' = work_buf s /\
  held s' = held s /\
  (buffers_disjoint s -> buffers_disjoint s') /\
  (s_copy_done_sem s = false -> s_copy_done_sem s' = false).
Proof.
  revert l s. induction turns as [| t turns IH]; intros l s Hrun.
  - injection Hrun as <- <-. simpl. tauto.
  - simpl in Hrun.
    destruct (run_flushes (turn_flushes t) s) as [s1 |] eqn:Hfl;
      [| discriminate].
    pose proof (lvgl_task_iter_keeps pdMS_TO_TICKS (turn_ttn t) (turn_now t)
                  l s1) as Hk.
    destruct (lvgl_task_iter pdMS_TO_TICKS (turn_ttn t) (turn_now t) l s1)
      as [l1 s2].
    cbv zeta in Hk. cbn [snd] in Hk.
    destruct Hk as (Hw2 & Hf2 & Hb2 & Hs2 & Hh2 & _ & Hd2).
    destruct (IH l1 s2 Hrun) as (Hd & Hw & Hh & Hdis & Hsem).
    destruct (run_flushes_keeps _ _ _ Hfl)
      as ((Hw1 & Hh1 & _) & Hdis1 & Hsem1).
    pose proof (run_flushes_task_delays _ _ _ Hfl) as Hd1.
    split; [| split; [congruence | split; [congruence | split]]].
    + rewrite Hd, Hd2, Hd1. simpl. rewrite <- app_assoc.
      rewrite task_delay_clamp. reflexivity.
    + intros H. apply Hdis. unfold buffers_disjoint in *.
      rewrite Hw2, Hf2, Hb2. apply Hdis1. exact H.
    + intros H. apply Hsem. rewrite Hs2. apply Hsem1. exact H.
Qed.

Lemma lvgl_task_run_paced_witness :
  exists l' s',
    lvgl_task_run (fun ms => ms)
      [mkTurn [mkFlush true tile_A sram_render_buf dma_ok] 0 7;
       mkTurn [] 33 40]
      (mkLocals 0 0) (running_state white_tile_mem) = Some (l', s') /\
    task_delays (trace s') = [10; 1] /\ work_buf s' = psram0.
Proof.
  eexists. eexists.
  assert (H : forall r, r = lvgl_task_run (fun ms => ms)
      [mkTurn [mkFlush true tile_A sram_render_buf dma_ok] 0 7;
       mkTurn [] 33 40]
      (mkLocals 0 0) (running_state white_tile_mem) ->
      match r with
      | Some (l', s') => task_delays (trace s') = [10; 1] /\
                         work_buf s' = psram0
      | None => True
      end).
  { intros [[l' s'] |] Hr; [| exact I].
    destruct (lvgl_task_run_paced _ _ _ _ _ _ (eq_sym Hr))
      as (Hd & Hw & _).
    split; [exact Hd | exact Hw]. }
  split; [reflexivity |].
  exact (H _ eq_refl).
Defined.
